(** * Data model of the student-transfer administration system

    A shallow embedding of [app/models.py]: the enumerations, the
    persistent (table) models with their column constraints, and the
    transient request shapes with their field constraints.

    Conventions.
    - A Python [str] is a [string]; [len] is [String.length].
    - A Python [int] is a [Z]; a [datetime] is the record [datetime].
    - A keyword argument that the caller may leave out is an [option].
    - [datetime.utcnow] is the clock; it is passed as the argument [now]. *)

From Stdlib Require Import ZArith List String Ascii Bool Lia.
Import ListNotations.
Local Open Scope string_scope.
Local Open Scope Z_scope.

(** ** Enumerations (all are [str] enums: each member has a string value) *)

Inductive UserRole := SCHOOL_ADMIN | TEACHER | DISTRICT_OPERATOR | HEADMASTER.

Inductive TransferStatus :=
| DRAFT
| SUBMITTED
| DOCUMENT_VERIFICATION
| PENDING_APPROVAL
| APPROVED
| REJECTED
| COMPLETED.

Inductive TransferType := INCOMING | OUTGOING.

Inductive DocumentType :=
| BIRTH_CERTIFICATE
| REPORT_CARD
| FAMILY_CARD
| TRANSFER_LETTER
| OTHER.

Inductive NotificationType :=
| N_TRANSFER_SUBMITTED
| N_DOCUMENT_REQUIRED
| N_APPROVED
| N_REJECTED
| N_COMPLETED.

Module TransferStatus_.
(** [member.value] *)
Definition value (s : TransferStatus) : string :=
  match s with
  | DRAFT => "draft"
  | SUBMITTED => "submitted"
  | DOCUMENT_VERIFICATION => "document_verification"
  | PENDING_APPROVAL => "pending_approval"
  | APPROVED => "approved"
  | REJECTED => "rejected"
  | COMPLETED => "completed"
  end.

(** [list(TransferStatus)]: the members in definition order. *)
Definition members : list TransferStatus :=
  [DRAFT; SUBMITTED; DOCUMENT_VERIFICATION; PENDING_APPROVAL;
   APPROVED; REJECTED; COMPLETED].

(** [TransferStatus(v)]: lookup of a member by value; [None] stands for
    the [ValueError] of an unknown value. *)
Definition of_value (v : string) : option TransferStatus :=
  find (fun s => String.eqb (value s) v) members.

Definition eqb (a b : TransferStatus) : bool :=
  match a, b with
  | DRAFT, DRAFT | SUBMITTED, SUBMITTED
  | DOCUMENT_VERIFICATION, DOCUMENT_VERIFICATION
  | PENDING_APPROVAL, PENDING_APPROVAL
  | APPROVED, APPROVED | REJECTED, REJECTED | COMPLETED, COMPLETED => true
  | _, _ => false
  end.
End TransferStatus_.

Module TransferType_.
Definition value (t : TransferType) : string :=
  match t with INCOMING => "incoming" | OUTGOING => "outgoing" end.

Definition eqb (a b : TransferType) : bool :=
  match a, b with
  | INCOMING, INCOMING | OUTGOING, OUTGOING => true
  | _, _ => false
  end.
End TransferType_.

(** ** Dates *)

Record datetime := mk_datetime {
  dt_year : Z;
  dt_month : Z;
  dt_day : Z;
  dt_hour : Z;
  dt_minute : Z;
  dt_second : Z;
  dt_microsecond : Z
}.

(** ** Errors

    [ValidationError] is what a request shape raises: one entry per
    offending field, in declaration order.  The other three are the
    storage layer's integrity errors, each naming a column. *)

Inductive ErrorKind :=
| missing
| string_too_short (min_length : nat)
| string_too_long (max_length : nat)
| string_pattern_mismatch.

Definition FieldError : Type := string * ErrorKind.

Inductive Error :=
| ValidationError (errors : list FieldError)
| UniquenessConflict (field : string)
| NotNullViolation (field : string)
| NotFound (field : string).

(** ** Regular expressions

    The fragment of [re] that the schema's one pattern uses, matched by
    derivatives.  [fullmatch] matches a whole string against the body of
    a pattern; [re_match] below applies a pattern written [^ body $] the
    way [re.match] does. *)

Inductive regex :=
| Void
| Eps
| Class (p : ascii -> bool)
| Cat (r1 r2 : regex)
| Alt (r1 r2 : regex)
| Star (r : regex).

Definition Plus (r : regex) : regex := Cat r (Star r).

Fixpoint nullable (r : regex) : bool :=
  match r with
  | Void => false
  | Eps => true
  | Class _ => false
  | Cat r1 r2 => nullable r1 && nullable r2
  | Alt r1 r2 => nullable r1 || nullable r2
  | Star _ => true
  end.

Fixpoint deriv (c : ascii) (r : regex) : regex :=
  match r with
  | Void => Void
  | Eps => Void
  | Class p => if p c then Eps else Void
  | Cat r1 r2 =>
      if nullable r1
      then Alt (Cat (deriv c r1) r2) (deriv c r2)
      else Cat (deriv c r1) r2
  | Alt r1 r2 => Alt (deriv c r1) (deriv c r2)
  | Star r1 => Cat (deriv c r1) (Star r1)
  end.

Fixpoint fullmatch (r : regex) (s : string) : bool :=
  match s with
  | EmptyString => nullable r
  | String c s' => fullmatch (deriv c r) s'
  end.

Definition in_range (lo hi c : ascii) : bool :=
  (N.leb (N_of_ascii lo) (N_of_ascii c) && N.leb (N_of_ascii c) (N_of_ascii hi))%bool.

Definition one_of (cs : string) (c : ascii) : bool :=
  existsb (Ascii.eqb c) (list_ascii_of_string cs).

(** [a-zA-Z0-9] *)
Definition alnum (c : ascii) : bool :=
  in_range "a" "z" c || in_range "A" "Z" c || in_range "0" "9" c.

(** The body of [^[a-zA-Z0-9_.+-]+@[a-zA-Z0-9-]+\.[a-zA-Z0-9-.]+$] *)
Definition email_regex : regex :=
  Cat (Plus (Class (fun c => alnum c || one_of "_.+-" c)))
 (Cat (Class (Ascii.eqb "@"))
 (Cat (Plus (Class (fun c => alnum c || one_of "-" c)))
 (Cat (Class (Ascii.eqb "."))
      (Plus (Class (fun c => alnum c || one_of "-." c)))))).

Definition newline : ascii := ascii_of_nat 10.

(** [chomp s] is [Some p] when [s] is [p] followed by one newline. *)
Fixpoint chomp (s : string) : option string :=
  match s with
  | EmptyString => None
  | String c EmptyString => if Ascii.eqb c newline then Some EmptyString else None
  | String c s' => option_map (String c) (chomp s')
  end.

(** [re.match] of the pattern [^ body $] on [s]: [^] anchors at the
    start, and [$] matches at the end of the string or just before a
    newline that ends the string. *)
Definition re_match (body : regex) (s : string) : bool :=
  fullmatch body s
  || match chomp s with
     | Some p => fullmatch body p
     | None => false
     end.

(** ** Field validation of the request shapes ([table=False])

    A request shape validates its fields when it is built and reports
    every offending field at once. *)

Definition Validated (A : Type) : Type := list FieldError + A.

Definition vpure {A} (a : A) : Validated A := inr a.

Definition vap {A B} (f : Validated (A -> B)) (x : Validated A) : Validated B :=
  match f, x with
  | inr g, inr a => inr (g a)
  | inl e, inr _ => inl e
  | inr _, inl e => inl e
  | inl e1, inl e2 => inl (e1 ++ e2)%list
  end.

Notation "f <*> x" := (vap f x) (at level 50, left associativity).

(** The constraints a [Field(...)] puts on a [str]. *)
Record StrField := {
  min_length : option nat;
  max_length : option nat;
  pattern : option regex
}.

Definition Field (max : nat) : StrField :=
  {| min_length := None; max_length := Some max; pattern := None |}.

Definition too_short (c : StrField) (v : string) : bool :=
  match min_length c with
  | Some n => Nat.ltb (String.length v) n
  | None => false
  end.

Definition too_long (c : StrField) (v : string) : bool :=
  match max_length c with
  | Some n => Nat.ltb n (String.length v)
  | None => false
  end.

Definition mismatch (c : StrField) (v : string) : bool :=
  match pattern c with
  | Some r => negb (re_match r v)
  | None => false
  end.

(** The checks on one string, in the order the validator runs them;
    the first that fails is the field's error. *)
Definition check_str (name : string) (c : StrField) (v : string) : Validated string :=
  if too_short c v then
    inl [(name, string_too_short (match min_length c with Some n => n | None => O end))]
  else if too_long c v then
    inl [(name, string_too_long (match max_length c with Some n => n | None => O end))]
  else if mismatch c v then inl [(name, string_pattern_mismatch)]
  else inr v.

Definition str_ok (c : StrField) (v : string) : bool :=
  negb (too_short c v) && negb (too_long c v) && negb (mismatch c v).

(** A field without a default: leaving it out is an error. *)
Definition required {A} (name : string) (v : option A) : Validated A :=
  match v with
  | Some a => inr a
  | None => inl [(name, missing)]
  end.

Definition required_str (name : string) (c : StrField) (v : option string)
  : Validated string :=
  match v with
  | Some a => check_str name c a
  | None => inl [(name, missing)]
  end.

(** [Optional[str] = Field(default=None, ...)] *)
Definition optional_str (name : string) (c : StrField) (v : option string)
  : Validated (option string) :=
  match v with
  | Some a =>
      match check_str name c a with
      | inr a' => inr (Some a')
      | inl e => inl e
      end
  | None => inr None
  end.

(** A [str] field with a default; the default itself is not validated. *)
Definition default_str (name : string) (c : StrField) (d : string) (v : option string)
  : Validated string :=
  match v with
  | Some a => check_str name c a
  | None => inr d
  end.

Definition default {A} (d : A) (v : option A) : Validated A :=
  match v with
  | Some a => inr a
  | None => inr d
  end.

Definition optional {A} (v : option A) : Validated (option A) := inr v.

Definition raise {A} (r : Validated A) : Error + A :=
  match r with
  | inl e => inl (ValidationError e)
  | inr a => inr a
  end.

(** [fails_at field v]: [v] is a rejection that reports [field]. *)
Definition fails_at {A} (field : string) (v : Validated A) : Prop :=
  exists errs k, v = inl errs /\ In (field, k) errs.

(** ** Request shapes *)

Module UserCreate.
Module Raw.
Record t := {
  username : option string;
  email : option string;
  password : option string;
  full_name : option string;
  role : option UserRole;
  phone : option string
}.
End Raw.

Record t := make {
  username : string;
  email : string;
  password : string;
  full_name : string;
  role : UserRole;
  phone : option string
}.

Definition password_field : StrField :=
  {| min_length := Some 8%nat; max_length := Some 100%nat; pattern := None |}.

Definition validate (kw : Raw.t) : Error + t :=
  raise (vpure make
    <*> required_str "username" (Field 50) (Raw.username kw)
    <*> required_str "email" (Field 255) (Raw.email kw)
    <*> required_str "password" password_field (Raw.password kw)
    <*> required_str "full_name" (Field 100) (Raw.full_name kw)
    <*> default TEACHER (Raw.role kw)
    <*> optional_str "phone" (Field 20) (Raw.phone kw)).
End UserCreate.

Module TransferCreate.
Module Raw.
Record t := {
  student_id : option Z;
  transfer_type : option TransferType;
  origin_school_id : option Z;
  destination_school_id : option Z;
  transfer_reason : option string;
  grade_from : option string;
  grade_to : option string;
  semester : option string;
  academic_year : option string;
  priority_level : option string;
  notes : option string
}.
End Raw.

Record t := make {
  student_id : Z;
  transfer_type : TransferType;
  origin_school_id : Z;
  destination_school_id : Z;
  transfer_reason : string;
  grade_from : string;
  grade_to : string;
  semester : string;
  academic_year : string;
  priority_level : string;
  notes : option string
}.

Definition validate (kw : Raw.t) : Error + t :=
  raise (vpure make
    <*> required "student_id" (Raw.student_id kw)
    <*> required "transfer_type" (Raw.transfer_type kw)
    <*> required "origin_school_id" (Raw.origin_school_id kw)
    <*> required "destination_school_id" (Raw.destination_school_id kw)
    <*> required_str "transfer_reason" (Field 1000) (Raw.transfer_reason kw)
    <*> required_str "grade_from" (Field 10) (Raw.grade_from kw)
    <*> required_str "grade_to" (Field 10) (Raw.grade_to kw)
    <*> required_str "semester" (Field 10) (Raw.semester kw)
    <*> required_str "academic_year" (Field 10) (Raw.academic_year kw)
    <*> default_str "priority_level" (Field 20) "normal" (Raw.priority_level kw)
    <*> optional_str "notes" (Field 2000) (Raw.notes kw)).
End TransferCreate.

Module TransferUpdate.
Record t := make {
  transfer_reason : option string;
  status : option TransferStatus;
  grade_from : option string;
  grade_to : option string;
  semester : option string;
  academic_year : option string;
  priority_level : option string;
  notes : option string;
  approval_notes : option string
}.

(** Every field is optional with default [None]; the raw input has the
    shape of the result. *)
Definition validate (kw : t) : Error + t :=
  raise (vpure make
    <*> optional_str "transfer_reason" (Field 1000) (transfer_reason kw)
    <*> optional (status kw)
    <*> optional_str "grade_from" (Field 10) (grade_from kw)
    <*> optional_str "grade_to" (Field 10) (grade_to kw)
    <*> optional_str "semester" (Field 10) (semester kw)
    <*> optional_str "academic_year" (Field 10) (academic_year kw)
    <*> optional_str "priority_level" (Field 20) (priority_level kw)
    <*> optional_str "notes" (Field 2000) (notes kw)
    <*> optional_str "approval_notes" (Field 1000) (approval_notes kw)).
End TransferUpdate.

Module TransferApproval.
Module Raw.
Record t := {
  status : option TransferStatus;
  approval_notes : option string
}.
End Raw.

Record t := make {
  status : TransferStatus;
  approval_notes : string
}.

Definition validate (kw : Raw.t) : Error + t :=
  raise (vpure make
    <*> required "status" (Raw.status kw)
    <*> required_str "approval_notes" (Field 1000) (Raw.approval_notes kw)).
End TransferApproval.

(** ** Persistent models ([table=True])

    A row is the stored record.  [id] is [None] until the storage layer
    assigns the primary key.  A table model runs no field validation
    when it is built; its declarations become column constraints
    (NOT NULL for a field that is neither [Optional] nor defaulted,
    UNIQUE for [unique=True], a reference for [foreign_key]). *)

Definition not_null {A} (field : string) (v : option A) : Error + A :=
  match v with
  | Some a => inr a
  | None => inl (NotNullViolation field)
  end.

Definition or_default {A} (d : A) (v : option A) : A :=
  match v with
  | Some a => a
  | None => d
  end.

Notation "x <- c ;; k" :=
  (match c with inl e => inl e | inr x => k end)
  (at level 61, c at next level, right associativity).

Module User.
Record t := make {
  id : option Z;
  username : string;
  email : string;
  password_hash : string;
  full_name : string;
  role : UserRole;
  is_active : bool;
  phone : option string;
  created_at : datetime;
  updated_at : datetime;
  last_login : option datetime
}.

Definition set_id (i : Z) (r : t) : t :=
  make (Some i) (username r) (email r) (password_hash r) (full_name r)
       (role r) (is_active r) (phone r) (created_at r) (updated_at r)
       (last_login r).

(** The [unique=True] columns. *)
Definition unique : list (string * (t -> string)) :=
  [("username", username); ("email", email)].

Definition email_field : StrField :=
  {| min_length := None; max_length := Some 255%nat; pattern := Some email_regex |}.

(** The string fields with the constraint each declares; [phone] has a
    value only when it is given. *)
Definition str_fields (r : t) : list (string * StrField * string) :=
  ([("username", Field 50, username r);
   ("email", email_field, email r);
   ("password_hash", Field 255, password_hash r);
   ("full_name", Field 100, full_name r)]
  ++ match phone r with
     | Some p => [("phone", Field 20, p)]
     | None => []
     end)%list.
End User.

Module School.
Record t := make {
  id : option Z;
  npsn : string;
  name : string;
  address : string;
  district : string;
  regency : string;
  province : string;
  postal_code : option string;
  phone : option string;
  email : option string;
  headmaster_name : string;
  is_active : bool;
  created_at : datetime
}.

Definition set_id (i : Z) (r : t) : t :=
  make (Some i) (npsn r) (name r) (address r) (district r) (regency r)
       (province r) (postal_code r) (phone r) (email r) (headmaster_name r)
       (is_active r) (created_at r).

Definition unique : list (string * (t -> string)) := [("npsn", npsn)].
End School.

Module Student.
Record t := make {
  id : option Z;
  nisn : string;
  nis : option string;
  full_name : string;
  birth_place : string;
  birth_date : datetime;
  gender : string;
  religion : string;
  address : string;
  parent_name : string;
  parent_phone : option string;
  current_grade : string;
  created_at : datetime;
  updated_at : datetime
}.

Definition set_id (i : Z) (r : t) : t :=
  make (Some i) (nisn r) (nis r) (full_name r) (birth_place r) (birth_date r)
       (gender r) (religion r) (address r) (parent_name r) (parent_phone r)
       (current_grade r) (created_at r) (updated_at r).

Definition unique : list (string * (t -> string)) := [("nisn", nisn)].
End Student.

Module StudentTransfer.
Module Raw.
Record t := {
  id : option Z;
  transfer_number : option string;
  student_id : option Z;
  transfer_type : option TransferType;
  origin_school_id : option Z;
  destination_school_id : option Z;
  transfer_reason : option string;
  status : option TransferStatus;
  grade_from : option string;
  grade_to : option string;
  semester : option string;
  academic_year : option string;
  transfer_date : option datetime;
  created_by_id : option Z;
  approved_by_id : option Z;
  approval_date : option datetime;
  approval_notes : option string;
  priority_level : option string;
  notes : option string;
  created_at : option datetime;
  updated_at : option datetime
}.
End Raw.

Record t := make {
  id : option Z;
  transfer_number : string;
  student_id : Z;
  transfer_type : TransferType;
  origin_school_id : Z;
  destination_school_id : Z;
  transfer_reason : string;
  status : TransferStatus;
  grade_from : string;
  grade_to : string;
  semester : string;
  academic_year : string;
  transfer_date : datetime;
  created_by_id : Z;
  approved_by_id : option Z;
  approval_date : option datetime;
  approval_notes : option string;
  priority_level : string;
  notes : option string;
  created_at : datetime;
  updated_at : datetime
}.

(** The row of an object built from keyword arguments: defaults filled
    in, a missing NOT NULL column refused. *)
Definition new (now : datetime) (kw : Raw.t) : Error + t :=
  transfer_number' <- not_null "transfer_number" (Raw.transfer_number kw) ;;
  student_id' <- not_null "student_id" (Raw.student_id kw) ;;
  transfer_type' <- not_null "transfer_type" (Raw.transfer_type kw) ;;
  origin' <- not_null "origin_school_id" (Raw.origin_school_id kw) ;;
  destination' <- not_null "destination_school_id" (Raw.destination_school_id kw) ;;
  transfer_reason' <- not_null "transfer_reason" (Raw.transfer_reason kw) ;;
  grade_from' <- not_null "grade_from" (Raw.grade_from kw) ;;
  grade_to' <- not_null "grade_to" (Raw.grade_to kw) ;;
  semester' <- not_null "semester" (Raw.semester kw) ;;
  academic_year' <- not_null "academic_year" (Raw.academic_year kw) ;;
  created_by_id' <- not_null "created_by_id" (Raw.created_by_id kw) ;;
  inr {| id := Raw.id kw;
         transfer_number := transfer_number';
         student_id := student_id';
         transfer_type := transfer_type';
         origin_school_id := origin';
         destination_school_id := destination';
         transfer_reason := transfer_reason';
         status := or_default DRAFT (Raw.status kw);
         grade_from := grade_from';
         grade_to := grade_to';
         semester := semester';
         academic_year := academic_year';
         transfer_date := or_default now (Raw.transfer_date kw);
         created_by_id := created_by_id';
         approved_by_id := Raw.approved_by_id kw;
         approval_date := Raw.approval_date kw;
         approval_notes := Raw.approval_notes kw;
         priority_level := or_default "normal" (Raw.priority_level kw);
         notes := Raw.notes kw;
         created_at := or_default now (Raw.created_at kw);
         updated_at := or_default now (Raw.updated_at kw) |}.

Definition set_id (i : Z) (r : t) : t :=
  make (Some i) (transfer_number r) (student_id r) (transfer_type r)
       (origin_school_id r) (destination_school_id r) (transfer_reason r)
       (status r) (grade_from r) (grade_to r) (semester r) (academic_year r)
       (transfer_date r) (created_by_id r) (approved_by_id r)
       (approval_date r) (approval_notes r) (priority_level r) (notes r)
       (created_at r) (updated_at r).

Definition unique : list (string * (t -> string)) :=
  [("transfer_number", transfer_number)].

(** The keyword arguments a [TransferCreate] payload supplies, with the
    two columns the payload cannot carry ([transfer_number],
    [created_by_id]) given by the caller.  Everything else is left out. *)
Definition from_create (number : string) (creator : Z) (c : TransferCreate.t)
  : Raw.t :=
  {| Raw.id := None;
     Raw.transfer_number := Some number;
     Raw.student_id := Some (TransferCreate.student_id c);
     Raw.transfer_type := Some (TransferCreate.transfer_type c);
     Raw.origin_school_id := Some (TransferCreate.origin_school_id c);
     Raw.destination_school_id := Some (TransferCreate.destination_school_id c);
     Raw.transfer_reason := Some (TransferCreate.transfer_reason c);
     Raw.status := None;
     Raw.grade_from := Some (TransferCreate.grade_from c);
     Raw.grade_to := Some (TransferCreate.grade_to c);
     Raw.semester := Some (TransferCreate.semester c);
     Raw.academic_year := Some (TransferCreate.academic_year c);
     Raw.transfer_date := None;
     Raw.created_by_id := Some creator;
     Raw.approved_by_id := None;
     Raw.approval_date := None;
     Raw.approval_notes := None;
     Raw.priority_level := Some (TransferCreate.priority_level c);
     Raw.notes := TransferCreate.notes c;
     Raw.created_at := None;
     Raw.updated_at := None |}.
End StudentTransfer.

Module TransferDocument.
Record t := make {
  id : option Z;
  transfer_id : Z;
  document_type : DocumentType;
  file_name : string;
  file_path : string;
  file_size : Z;
  mime_type : string;
  is_verified : bool;
  verified_by_id : option Z;
  verified_at : option datetime;
  verification_notes : option string;
  uploaded_at : datetime
}.

Definition set_id (i : Z) (r : t) : t :=
  make (Some i) (transfer_id r) (document_type r) (file_name r) (file_path r)
       (file_size r) (mime_type r) (is_verified r) (verified_by_id r)
       (verified_at r) (verification_notes r) (uploaded_at r).

Definition unique : list (string * (t -> string)) := [].
End TransferDocument.

Module TransferStatusHistory.
Module Raw.
Record t := {
  id : option Z;
  transfer_id : option Z;
  previous_status : option TransferStatus;
  new_status : option TransferStatus;
  changed_by_id : option Z;
  change_reason : option string;
  notes : option string;
  created_at : option datetime
}.
End Raw.

Record t := make {
  id : option Z;
  transfer_id : Z;
  previous_status : option TransferStatus;
  new_status : TransferStatus;
  changed_by_id : Z;
  change_reason : option string;
  notes : option string;
  created_at : datetime
}.

Definition new (now : datetime) (kw : Raw.t) : Error + t :=
  transfer_id' <- not_null "transfer_id" (Raw.transfer_id kw) ;;
  new_status' <- not_null "new_status" (Raw.new_status kw) ;;
  changed_by_id' <- not_null "changed_by_id" (Raw.changed_by_id kw) ;;
  inr {| id := Raw.id kw;
         transfer_id := transfer_id';
         previous_status := Raw.previous_status kw;
         new_status := new_status';
         changed_by_id := changed_by_id';
         change_reason := Raw.change_reason kw;
         notes := Raw.notes kw;
         created_at := or_default now (Raw.created_at kw) |}.

Definition set_id (i : Z) (r : t) : t :=
  make (Some i) (transfer_id r) (previous_status r) (new_status r)
       (changed_by_id r) (change_reason r) (notes r) (created_at r).

Definition unique : list (string * (t -> string)) := [].
End TransferStatusHistory.

Module SystemSettings.
Record t := make {
  id : option Z;
  setting_key : string;
  setting_value : string;
  description : option string;
  is_active : bool;
  created_at : datetime;
  updated_at : datetime
}.

Definition set_id (i : Z) (r : t) : t :=
  make (Some i) (setting_key r) (setting_value r) (description r)
       (is_active r) (created_at r) (updated_at r).

Definition unique : list (string * (t -> string)) :=
  [("setting_key", setting_key)].
End SystemSettings.

Module TransferStatistics.
Record t := make {
  id : option Z;
  year : Z;
  month : Z;
  total_incoming : Z;
  total_outgoing : Z;
  total_approved : Z;
  total_rejected : Z;
  total_pending : Z;
  created_at : datetime;
  updated_at : datetime
}.

Definition set_id (i : Z) (r : t) : t :=
  make (Some i) (year r) (month r) (total_incoming r) (total_outgoing r)
       (total_approved r) (total_rejected r) (total_pending r)
       (created_at r) (updated_at r).

Definition unique : list (string * (t -> string)) := [].
End TransferStatistics.

(** ** The storage layer *)

Section Table.
Context {Row : Type}.
Variable get_id : Row -> option Z.
Variable set_id : Z -> Row -> Row.
(** The UNIQUE columns of the table: name and projection. *)
Variable unique : list (string * (Row -> string)).

Definition taken (proj : Row -> string) (rows : list Row) (r : Row) : bool :=
  existsb (fun r' => String.eqb (proj r') (proj r)) rows.

(** The first UNIQUE column on which [r] repeats a stored value. *)
Definition conflict (rows : list Row) (r : Row) : option string :=
  option_map fst (find (fun c => taken (snd c) rows r) unique).

(** [r] repeats, on the UNIQUE column [field], the value of a stored row. *)
Definition offends (field : string) (rows : list Row) (r : Row) : Prop :=
  exists (proj : Row -> string) r',
    In (field, proj) unique /\ In r' rows /\ proj r' = proj r.

Definition has_id (i : Z) (rows : list Row) : bool :=
  existsb (fun r => match get_id r with Some j => Z.eqb i j | None => false end)
          rows.

Definition next_id (rows : list Row) : Z :=
  1 + fold_right
        (fun r m => match get_id r with Some i => Z.max i m | None => m end)
        0 rows.

(** Modelled from the spec: the storage layer's INSERT, which is not part
    of [app/models.py].  It enforces the UNIQUE columns the schema
    declares and the primary key, reports the offending column, and
    leaves the table as it was when it refuses the row.  It returns the
    stored row (with its primary key) or the error, and the table. *)
Definition insert (r : Row) (rows : list Row) : (Error + Row) * list Row :=
  match conflict rows r with
  | Some f => (inl (UniquenessConflict f), rows)
  | None =>
      match get_id r with
      | Some i =>
          if has_id i rows then (inl (UniquenessConflict "id"), rows)
          else (inr r, rows ++ [r])%list
      | None =>
          let r' := set_id (next_id rows) r in
          (inr r', rows ++ [r'])%list
      end
  end.

(** Rows reachable from the empty table by INSERTs. *)
Inductive reachable : list Row -> Prop :=
| reachable_empty : reachable []
| reachable_insert r rows :
    reachable rows -> reachable (snd (insert r rows)).
End Table.

Record DB := mkDB {
  users : list User.t;
  schools : list School.t;
  students : list Student.t;
  student_transfers : list StudentTransfer.t;
  transfer_documents : list TransferDocument.t;
  transfer_status_history : list TransferStatusHistory.t;
  system_settings : list SystemSettings.t;
  transfer_statistics : list TransferStatistics.t
}.

Definition insert_user := insert User.id User.set_id User.unique.
Definition insert_school := insert School.id School.set_id School.unique.
Definition insert_student := insert Student.id Student.set_id Student.unique.
Definition insert_transfer :=
  insert StudentTransfer.id StudentTransfer.set_id StudentTransfer.unique.
Definition insert_setting :=
  insert SystemSettings.id SystemSettings.set_id SystemSettings.unique.
Definition insert_history :=
  insert TransferStatusHistory.id TransferStatusHistory.set_id
         TransferStatusHistory.unique.

Definition set_student_transfers (rows : list StudentTransfer.t) (db : DB) : DB :=
  mkDB (users db) (schools db) (students db) rows (transfer_documents db)
       (transfer_status_history db) (system_settings db)
       (transfer_statistics db).

(** The first [foreign_key] column of a transfer whose target row is
    absent. *)
Definition missing_reference (db : DB) (t : StudentTransfer.t) : option string :=
  if negb (has_id Student.id (StudentTransfer.student_id t) (students db))
  then Some "student_id"
  else if negb (has_id School.id (StudentTransfer.origin_school_id t) (schools db))
  then Some "origin_school_id"
  else if negb (has_id School.id (StudentTransfer.destination_school_id t) (schools db))
  then Some "destination_school_id"
  else if negb (has_id User.id (StudentTransfer.created_by_id t) (users db))
  then Some "created_by_id"
  else match StudentTransfer.approved_by_id t with
       | Some u => if has_id User.id u (users db) then None else Some "approved_by_id"
       | None => None
       end.

(** Modelled from the spec: the storage layer's INSERT into
    [student_transfers], which is not part of [app/models.py]: the
    references are resolved first, then the row goes through [insert]. *)
Definition add_transfer (t : StudentTransfer.t) (db : DB)
  : (Error + StudentTransfer.t) * DB :=
  match missing_reference db t with
  | Some f => (inl (NotFound f), db)
  | None =>
      let (res, rows) := insert_transfer t (student_transfers db) in
      (res, set_student_transfers rows db)
  end.

(** The path of a creation request through the schema: the payload is
    validated as a [TransferCreate], the row is built from it with every
    other column defaulted, and the row is stored. *)
Definition create_transfer (now : datetime) (number : string) (creator : Z)
    (payload : TransferCreate.Raw.t) (db : DB)
  : (Error + StudentTransfer.t) * DB :=
  match TransferCreate.validate payload with
  | inl e => (inl e, db)
  | inr c =>
      match StudentTransfer.new now (StudentTransfer.from_create number creator c) with
      | inl e => (inl e, db)
      | inr t => add_transfer t db
      end
  end.

(** ** The lifecycle graph

    The transition graph of section 4.1 of the specification:
    draft -> submitted -> document_verification -> pending_approval ->
    approved | rejected, and approved -> completed.  The schema itself
    declares no such relation; it is written down here to state what the
    stored history may or may not satisfy. *)
Definition allowed (a b : TransferStatus) : bool :=
  match a, b with
  | DRAFT, SUBMITTED
  | SUBMITTED, DOCUMENT_VERIFICATION
  | DOCUMENT_VERIFICATION, PENDING_APPROVAL
  | PENDING_APPROVAL, APPROVED
  | PENDING_APPROVAL, REJECTED
  | APPROVED, COMPLETED => true
  | _, _ => false
  end.

Fixpoint walk (from : TransferStatus) (steps : list TransferStatus) : bool :=
  match steps with
  | [] => true
  | s :: rest => allowed from s && walk s rest
  end.

(** The [new_status] values of the history rows of one transfer, in the
    order the rows were stored. *)
Definition history_of (transfer : Z) (rows : list TransferStatusHistory.t)
  : list TransferStatus :=
  map TransferStatusHistory.new_status
      (filter (fun h => Z.eqb (TransferStatusHistory.transfer_id h) transfer) rows).

(** Whether the approval columns of a transfer are populated, and whether
    its status is one that has been decided. *)
Definition approval_populated (t : StudentTransfer.t) : bool :=
  match StudentTransfer.approved_by_id t, StudentTransfer.approval_date t with
  | Some _, Some _ => true
  | _, _ => false
  end.

Definition approval_absent (t : StudentTransfer.t) : bool :=
  match StudentTransfer.approved_by_id t, StudentTransfer.approval_date t with
  | None, None => true
  | _, _ => false
  end.

Definition decided (s : TransferStatus) : bool :=
  match s with
  | APPROVED | REJECTED | COMPLETED => true
  | _ => false
  end.

(** ** Document verification *)

(** Modelled from the spec: the verification of a document, which is not
    part of [app/models.py].  Section 4.2: verifying marks the document
    verified and records verifier, timestamp and notes; the file
    reference and every other column are never mutated. *)
Definition verify (verifier : Z) (now : datetime) (notes : option string)
    (d : TransferDocument.t) : TransferDocument.t :=
  TransferDocument.make
    (TransferDocument.id d) (TransferDocument.transfer_id d)
    (TransferDocument.document_type d) (TransferDocument.file_name d)
    (TransferDocument.file_path d) (TransferDocument.file_size d)
    (TransferDocument.mime_type d)
    true (Some verifier) (Some now) notes
    (TransferDocument.uploaded_at d).

Definition is_document (i : Z) (d : TransferDocument.t) : bool :=
  match TransferDocument.id d with
  | Some j => Z.eqb i j
  | None => false
  end.

(** Modelled from the spec: verification of the stored document with
    primary key [i]; [NotFound] when there is none. *)
Definition verify_document (i verifier : Z) (now : datetime)
    (notes : option string) (docs : list TransferDocument.t)
  : (Error + TransferDocument.t) * list TransferDocument.t :=
  match find (is_document i) docs with
  | None => (inl (NotFound "id"), docs)
  | Some d =>
      (inr (verify verifier now notes d),
       map (fun d' => if is_document i d' then verify verifier now notes d' else d')
           docs)
  end.

(** The columns of a document that verification does not own. *)
Definition document_content (d : TransferDocument.t) :=
  (TransferDocument.id d, TransferDocument.transfer_id d,
   TransferDocument.document_type d, TransferDocument.file_name d,
   TransferDocument.file_path d, TransferDocument.file_size d,
   TransferDocument.mime_type d, TransferDocument.uploaded_at d).

(** ** Statistics *)

Section Statistics.
(** What the specification leaves open: which transfers fall in a
    period, and which statuses count as pending. *)
Variable in_period : StudentTransfer.t -> Z -> Z -> bool.
Variable is_pending : TransferStatus -> bool.

Definition count (p : StudentTransfer.t -> bool) (ts : list StudentTransfer.t) : Z :=
  Z.of_nat (List.length (filter p ts)).

Record Totals := mkTotals {
  incoming : Z;
  outgoing : Z;
  approved : Z;
  rejected : Z;
  pending : Z
}.

(** Modelled from the spec: the aggregate of section 4.3 for one period,
    which is not part of [app/models.py]: one counter per column of
    [TransferStatistics], over the transfers of the period. *)
Definition aggregate (y m : Z) (ts : list StudentTransfer.t) : Totals :=
  let period := filter (fun t => in_period t y m) ts in
  {| incoming := count (fun t => TransferType_.eqb (StudentTransfer.transfer_type t) INCOMING) period;
     outgoing := count (fun t => TransferType_.eqb (StudentTransfer.transfer_type t) OUTGOING) period;
     approved := count (fun t => TransferStatus_.eqb (StudentTransfer.status t) APPROVED) period;
     rejected := count (fun t => TransferStatus_.eqb (StudentTransfer.status t) REJECTED) period;
     pending := count (fun t => is_pending (StudentTransfer.status t)) period |}.

Definition is_period (y m : Z) (r : TransferStatistics.t) : bool :=
  Z.eqb (TransferStatistics.year r) y && Z.eqb (TransferStatistics.month r) m.

Definition set_totals (tot : Totals) (now : datetime) (r : TransferStatistics.t)
  : TransferStatistics.t :=
  TransferStatistics.make
    (TransferStatistics.id r) (TransferStatistics.year r)
    (TransferStatistics.month r)
    (incoming tot) (outgoing tot) (approved tot) (rejected tot) (pending tot)
    (TransferStatistics.created_at r) now.

Definition totals_of (r : TransferStatistics.t) : Totals :=
  {| incoming := TransferStatistics.total_incoming r;
     outgoing := TransferStatistics.total_outgoing r;
     approved := TransferStatistics.total_approved r;
     rejected := TransferStatistics.total_rejected r;
     pending := TransferStatistics.total_pending r |}.

(** Modelled from the spec: recomputation of the row of a period, which
    is not part of [app/models.py]: the row of (year, month) receives
    the aggregate; it is created when the period has none yet. *)
Definition recompute (y m : Z) (now : datetime) (ts : list StudentTransfer.t)
    (stats : list TransferStatistics.t) : list TransferStatistics.t :=
  let tot := aggregate y m ts in
  if existsb (is_period y m) stats
  then map (fun r => if is_period y m r then set_totals tot now r else r) stats
  else (stats ++
        [TransferStatistics.make
           (Some (next_id TransferStatistics.id stats)) y m
           (incoming tot) (outgoing tot) (approved tot) (rejected tot)
           (pending tot) now now])%list.

(** The totals stored for a period: those of its rows. *)
Definition stored_totals (y m : Z) (stats : list TransferStatistics.t)
  : list Totals :=
  map totals_of (filter (is_period y m) stats).
End Statistics.

(** ** The other enumerations: values and lookup by value *)

Module UserRole_.
Definition value (r : UserRole) : string :=
  match r with
  | SCHOOL_ADMIN => "school_admin"
  | TEACHER => "teacher"
  | DISTRICT_OPERATOR => "district_operator"
  | HEADMASTER => "headmaster"
  end.

Definition members : list UserRole :=
  [SCHOOL_ADMIN; TEACHER; DISTRICT_OPERATOR; HEADMASTER].

Definition of_value (v : string) : option UserRole :=
  find (fun r => String.eqb (value r) v) members.
End UserRole_.

Module DocumentType_.
Definition value (d : DocumentType) : string :=
  match d with
  | BIRTH_CERTIFICATE => "birth_certificate"
  | REPORT_CARD => "report_card"
  | FAMILY_CARD => "family_card"
  | TRANSFER_LETTER => "transfer_letter"
  | OTHER => "other"
  end.

Definition members : list DocumentType :=
  [BIRTH_CERTIFICATE; REPORT_CARD; FAMILY_CARD; TRANSFER_LETTER; OTHER].

Definition of_value (v : string) : option DocumentType :=
  find (fun d => String.eqb (value d) v) members.
End DocumentType_.

Module NotificationType_.
Definition value (n : NotificationType) : string :=
  match n with
  | N_TRANSFER_SUBMITTED => "transfer_submitted"
  | N_DOCUMENT_REQUIRED => "document_required"
  | N_APPROVED => "approved"
  | N_REJECTED => "rejected"
  | N_COMPLETED => "completed"
  end.

Definition members : list NotificationType :=
  [N_TRANSFER_SUBMITTED; N_DOCUMENT_REQUIRED; N_APPROVED; N_REJECTED; N_COMPLETED].

Definition of_value (v : string) : option NotificationType :=
  find (fun n => String.eqb (value n) v) members.
End NotificationType_.

Definition TransferType_members : list TransferType := [INCOMING; OUTGOING].

Definition TransferType_of_value (v : string) : option TransferType :=
  find (fun t => String.eqb (TransferType_.value t) v) TransferType_members.

(** ** What a pattern denotes

    The strings a [regex] matches, as the usual inductive relation; the
    derivative matcher [fullmatch] is checked against it below. *)

Inductive matches : regex -> string -> Prop :=
| matches_eps : matches Eps ""
| matches_class p c : p c = true -> matches (Class p) (String c "")
| matches_cat r1 r2 s1 s2 :
    matches r1 s1 -> matches r2 s2 -> matches (Cat r1 r2) (s1 ++ s2)
| matches_alt_l r1 r2 s : matches r1 s -> matches (Alt r1 r2) s
| matches_alt_r r1 r2 s : matches r2 s -> matches (Alt r1 r2) s
| matches_star_nil r : matches (Star r) ""
| matches_star_cons r s1 s2 :
    matches r s1 -> matches (Star r) s2 -> matches (Star r) (s1 ++ s2).

(** Every character of [s] satisfies [p]. *)
Fixpoint all_in (p : ascii -> bool) (s : string) : bool :=
  match s with
  | EmptyString => true
  | String c s' => p c && all_in p s'
  end.

(** The number of occurrences of [c] in [s]. *)
Fixpoint occurrences (c : ascii) (s : string) : nat :=
  match s with
  | EmptyString => O
  | String c' s' => ((if Ascii.eqb c c' then 1 else 0) + occurrences c s')%nat
  end.

(** The three character classes of the email pattern. *)
Definition local_char (c : ascii) : bool := alnum c || one_of "_.+-" c.
Definition domain_char (c : ascii) : bool := alnum c || one_of "-" c.
Definition suffix_char (c : ascii) : bool := alnum c || one_of "-." c.

(** ** Errors of a validation *)


(** ** Further request shapes *)

Module UserLogin.
Module Raw.
Record t := {
  username : option string;
  password : option string
}.
End Raw.

Record t := make {
  username : string;
  password : string
}.

Definition validate (kw : Raw.t) : Error + t :=
  raise (vpure make
    <*> required_str "username" (Field 50) (Raw.username kw)
    <*> required_str "password" (Field 100) (Raw.password kw)).
End UserLogin.

Module StudentCreate.
Module Raw.
Record t := {
  nisn : option string;
  nis : option string;
  full_name : option string;
  birth_place : option string;
  birth_date : option datetime;
  gender : option string;
  religion : option string;
  address : option string;
  parent_name : option string;
  parent_phone : option string;
  current_grade : option string
}.
End Raw.

Record t := make {
  nisn : string;
  nis : option string;
  full_name : string;
  birth_place : string;
  birth_date : datetime;
  gender : string;
  religion : string;
  address : string;
  parent_name : string;
  parent_phone : option string;
  current_grade : string
}.

Definition validate (kw : Raw.t) : Error + t :=
  raise (vpure make
    <*> required_str "nisn" (Field 20) (Raw.nisn kw)
    <*> optional_str "nis" (Field 20) (Raw.nis kw)
    <*> required_str "full_name" (Field 100) (Raw.full_name kw)
    <*> required_str "birth_place" (Field 100) (Raw.birth_place kw)
    <*> required "birth_date" (Raw.birth_date kw)
    <*> required_str "gender" (Field 10) (Raw.gender kw)
    <*> required_str "religion" (Field 20) (Raw.religion kw)
    <*> required_str "address" (Field 500) (Raw.address kw)
    <*> required_str "parent_name" (Field 100) (Raw.parent_name kw)
    <*> optional_str "parent_phone" (Field 20) (Raw.parent_phone kw)
    <*> required_str "current_grade" (Field 10) (Raw.current_grade kw)).
End StudentCreate.

Module SchoolCreate.
Module Raw.
Record t := {
  npsn : option string;
  name : option string;
  address : option string;
  district : option string;
  regency : option string;
  province : option string;
  postal_code : option string;
  phone : option string;
  email : option string;
  headmaster_name : option string
}.
End Raw.

Record t := make {
  npsn : string;
  name : string;
  address : string;
  district : string;
  regency : string;
  province : string;
  postal_code : option string;
  phone : option string;
  email : option string;
  headmaster_name : string
}.

Definition validate (kw : Raw.t) : Error + t :=
  raise (vpure make
    <*> required_str "npsn" (Field 20) (Raw.npsn kw)
    <*> required_str "name" (Field 200) (Raw.name kw)
    <*> required_str "address" (Field 500) (Raw.address kw)
    <*> required_str "district" (Field 100) (Raw.district kw)
    <*> required_str "regency" (Field 100) (Raw.regency kw)
    <*> required_str "province" (Field 100) (Raw.province kw)
    <*> optional_str "postal_code" (Field 10) (Raw.postal_code kw)
    <*> optional_str "phone" (Field 20) (Raw.phone kw)
    <*> optional_str "email" (Field 255) (Raw.email kw)
    <*> required_str "headmaster_name" (Field 100) (Raw.headmaster_name kw)).
End SchoolCreate.

Module DocumentUpload.
Module Raw.
Record t := {
  document_type : option DocumentType;
  file_name : option string;
  file_size : option Z;
  mime_type : option string
}.
End Raw.

Record t := make {
  document_type : DocumentType;
  file_name : string;
  file_size : Z;
  mime_type : string
}.

Definition validate (kw : Raw.t) : Error + t :=
  raise (vpure make
    <*> required "document_type" (Raw.document_type kw)
    <*> required_str "file_name" (Field 255) (Raw.file_name kw)
    <*> required "file_size" (Raw.file_size kw)
    <*> required_str "mime_type" (Field 100) (Raw.mime_type kw)).
End DocumentUpload.

(** ** Columns and values

    The [max_length] each table declares on its string columns, by column
    name, and the string values a record holds, by field name. *)

Definition Student_columns : list (string * StrField) :=
  [("nisn", Field 20); ("nis", Field 20); ("full_name", Field 100);
   ("birth_place", Field 100); ("gender", Field 10); ("religion", Field 20);
   ("address", Field 500); ("parent_name", Field 100);
   ("parent_phone", Field 20); ("current_grade", Field 10)].

Definition School_columns : list (string * StrField) :=
  [("npsn", Field 20); ("name", Field 200); ("address", Field 500);
   ("district", Field 100); ("regency", Field 100); ("province", Field 100);
   ("postal_code", Field 10); ("phone", Field 20); ("email", Field 255);
   ("headmaster_name", Field 100)].

Definition StudentTransfer_columns : list (string * StrField) :=
  [("transfer_number", Field 50); ("transfer_reason", Field 1000);
   ("grade_from", Field 10); ("grade_to", Field 10); ("semester", Field 10);
   ("academic_year", Field 10); ("approval_notes", Field 1000);
   ("priority_level", Field 20); ("notes", Field 2000)].

Definition TransferDocument_columns : list (string * StrField) :=
  [("file_name", Field 255); ("file_path", Field 500); ("mime_type", Field 100);
   ("verification_notes", Field 500)].

Definition column_of (name : string) (columns : list (string * StrField))
  : option StrField :=
  option_map snd (find (fun c => String.eqb (fst c) name) columns).

(** Every value has a column of its name and satisfies its constraint. *)
Definition fits (columns : list (string * StrField)) (values : list (string * string))
  : bool :=
  forallb (fun nv => match column_of (fst nv) columns with
                     | Some c => str_ok c (snd nv)
                     | None => false
                     end) values.

Definition opt_value (name : string) (v : option string) : list (string * string) :=
  match v with
  | Some a => [(name, a)]
  | None => []
  end.

Definition StudentCreate_values (c : StudentCreate.t) : list (string * string) :=
  ([("nisn", StudentCreate.nisn c)] ++ opt_value "nis" (StudentCreate.nis c)
   ++ [("full_name", StudentCreate.full_name c);
       ("birth_place", StudentCreate.birth_place c);
       ("gender", StudentCreate.gender c);
       ("religion", StudentCreate.religion c);
       ("address", StudentCreate.address c);
       ("parent_name", StudentCreate.parent_name c)]
   ++ opt_value "parent_phone" (StudentCreate.parent_phone c)
   ++ [("current_grade", StudentCreate.current_grade c)])%list.

Definition SchoolCreate_values (c : SchoolCreate.t) : list (string * string) :=
  ([("npsn", SchoolCreate.npsn c); ("name", SchoolCreate.name c);
    ("address", SchoolCreate.address c); ("district", SchoolCreate.district c);
    ("regency", SchoolCreate.regency c); ("province", SchoolCreate.province c)]
   ++ opt_value "postal_code" (SchoolCreate.postal_code c)
   ++ opt_value "phone" (SchoolCreate.phone c)
   ++ opt_value "email" (SchoolCreate.email c)
   ++ [("headmaster_name", SchoolCreate.headmaster_name c)])%list.

Definition StudentTransfer_values (t : StudentTransfer.t) : list (string * string) :=
  ([("transfer_number", StudentTransfer.transfer_number t);
    ("transfer_reason", StudentTransfer.transfer_reason t);
    ("grade_from", StudentTransfer.grade_from t);
    ("grade_to", StudentTransfer.grade_to t);
    ("semester", StudentTransfer.semester t);
    ("academic_year", StudentTransfer.academic_year t)]
   ++ opt_value "approval_notes" (StudentTransfer.approval_notes t)
   ++ [("priority_level", StudentTransfer.priority_level t)]
   ++ opt_value "notes" (StudentTransfer.notes t))%list.

Definition DocumentUpload_values (c : DocumentUpload.t) : list (string * string) :=
  [("file_name", DocumentUpload.file_name c);
   ("mime_type", DocumentUpload.mime_type c)].

(** ** Sample data *)

Definition short_password_request : UserCreate.Raw.t :=
  {| UserCreate.Raw.username := Some "budi";
     UserCreate.Raw.email := Some "budi@sdplus.sch.id";
     UserCreate.Raw.password := Some "rahasia";
     UserCreate.Raw.full_name := Some "Budi Santoso";
     UserCreate.Raw.role := None;
     UserCreate.Raw.phone := None |}.

Definition bad_email_request : UserCreate.Raw.t :=
  {| UserCreate.Raw.username := Some "budi";
     UserCreate.Raw.email := Some "not-an-email";
     UserCreate.Raw.password := Some "rahasia123";
     UserCreate.Raw.full_name := Some "Budi Santoso";
     UserCreate.Raw.role := None;
     UserCreate.Raw.phone := None |}.

Definition now0 : datetime := mk_datetime 2024 3 15 8 30 0 0.

Definition minimal_transfer : StudentTransfer.Raw.t :=
  {| StudentTransfer.Raw.id := None;
     StudentTransfer.Raw.transfer_number := Some "TRF-2024-0001";
     StudentTransfer.Raw.student_id := Some 1;
     StudentTransfer.Raw.transfer_type := Some OUTGOING;
     StudentTransfer.Raw.origin_school_id := Some 1;
     StudentTransfer.Raw.destination_school_id := Some 2;
     StudentTransfer.Raw.transfer_reason := Some "Pindah domisili";
     StudentTransfer.Raw.status := None;
     StudentTransfer.Raw.grade_from := Some "4";
     StudentTransfer.Raw.grade_to := Some "4";
     StudentTransfer.Raw.semester := Some "2";
     StudentTransfer.Raw.academic_year := Some "2023/2024";
     StudentTransfer.Raw.transfer_date := None;
     StudentTransfer.Raw.created_by_id := Some 1;
     StudentTransfer.Raw.approved_by_id := None;
     StudentTransfer.Raw.approval_date := None;
     StudentTransfer.Raw.approval_notes := None;
     StudentTransfer.Raw.priority_level := None;
     StudentTransfer.Raw.notes := None;
     StudentTransfer.Raw.created_at := None;
     StudentTransfer.Raw.updated_at := None |}.

Definition first_history_entry : TransferStatusHistory.Raw.t :=
  {| TransferStatusHistory.Raw.id := None;
     TransferStatusHistory.Raw.transfer_id := Some 1;
     TransferStatusHistory.Raw.previous_status := None;
     TransferStatusHistory.Raw.new_status := Some DRAFT;
     TransferStatusHistory.Raw.changed_by_id := Some 1;
     TransferStatusHistory.Raw.change_reason := None;
     TransferStatusHistory.Raw.notes := None;
     TransferStatusHistory.Raw.created_at := None |}.

Definition user1 : User.t :=
  User.make None "budi" "budi@sdplus.sch.id" "$2b$12$abcdefghijklmnopqrstuv"
            "Budi Santoso" TEACHER true None now0 now0 None.

Definition user1_again : User.t :=
  User.make None "budi" "budi.santoso@sdplus.sch.id" "$2b$12$zyxwvutsrqponmlkjihgfe"
            "Budi S." SCHOOL_ADMIN true None now0 now0 None.

Definition school1 : School.t :=
  School.make None "20100001" "SD Plus 1" "Jl. Merdeka 1" "Coblong" "Bandung"
              "Jawa Barat" None None None "Ibu Sri" true now0.

Definition school2 : School.t :=
  School.make None "20100002" "SD Plus 2" "Jl. Asia Afrika 2" "Sumur Bandung"
              "Bandung" "Jawa Barat" None None None "Pak Agus" true now0.

Definition student1 : Student.t :=
  Student.make None "0012345678" None "Siti Aminah" "Bandung"
               (mk_datetime 2014 5 2 0 0 0 0) "Perempuan" "Islam"
               "Jl. Merdeka 10" "Ibu Aminah" None "4" now0 now0.

(** A database with one user, two schools and one student, each stored
    through the storage layer. *)
Definition db1 : DB :=
  mkDB (snd (insert_user user1 []))
       (snd (insert_school school2 (snd (insert_school school1 []))))
       (snd (insert_student student1 []))
       [] [] [] [] [].

Definition transfer_request : TransferCreate.Raw.t :=
  {| TransferCreate.Raw.student_id := Some 1;
     TransferCreate.Raw.transfer_type := Some OUTGOING;
     TransferCreate.Raw.origin_school_id := Some 1;
     TransferCreate.Raw.destination_school_id := Some 2;
     TransferCreate.Raw.transfer_reason := Some "Pindah domisili";
     TransferCreate.Raw.grade_from := Some "4";
     TransferCreate.Raw.grade_to := Some "4";
     TransferCreate.Raw.semester := Some "2";
     TransferCreate.Raw.academic_year := Some "2023/2024";
     TransferCreate.Raw.priority_level := None;
     TransferCreate.Raw.notes := None |}.

(** The request [kw] with both school references set to [s]. *)
Definition with_schools (s : Z) (kw : TransferCreate.Raw.t) : TransferCreate.Raw.t :=
  {| TransferCreate.Raw.student_id := TransferCreate.Raw.student_id kw;
     TransferCreate.Raw.transfer_type := TransferCreate.Raw.transfer_type kw;
     TransferCreate.Raw.origin_school_id := Some s;
     TransferCreate.Raw.destination_school_id := Some s;
     TransferCreate.Raw.transfer_reason := TransferCreate.Raw.transfer_reason kw;
     TransferCreate.Raw.grade_from := TransferCreate.Raw.grade_from kw;
     TransferCreate.Raw.grade_to := TransferCreate.Raw.grade_to kw;
     TransferCreate.Raw.semester := TransferCreate.Raw.semester kw;
     TransferCreate.Raw.academic_year := TransferCreate.Raw.academic_year kw;
     TransferCreate.Raw.priority_level := TransferCreate.Raw.priority_level kw;
     TransferCreate.Raw.notes := TransferCreate.Raw.notes kw |}.

Definition same_school_request : TransferCreate.Raw.t :=
  with_schools 1 transfer_request.

(** The keyword arguments [kw] with the status and the two approval
    columns replaced. *)
Definition with_approval (s : option TransferStatus) (by_id : option Z)
    (date : option datetime) (kw : StudentTransfer.Raw.t) : StudentTransfer.Raw.t :=
  {| StudentTransfer.Raw.id := StudentTransfer.Raw.id kw;
     StudentTransfer.Raw.transfer_number := StudentTransfer.Raw.transfer_number kw;
     StudentTransfer.Raw.student_id := StudentTransfer.Raw.student_id kw;
     StudentTransfer.Raw.transfer_type := StudentTransfer.Raw.transfer_type kw;
     StudentTransfer.Raw.origin_school_id := StudentTransfer.Raw.origin_school_id kw;
     StudentTransfer.Raw.destination_school_id :=
       StudentTransfer.Raw.destination_school_id kw;
     StudentTransfer.Raw.transfer_reason := StudentTransfer.Raw.transfer_reason kw;
     StudentTransfer.Raw.status := s;
     StudentTransfer.Raw.grade_from := StudentTransfer.Raw.grade_from kw;
     StudentTransfer.Raw.grade_to := StudentTransfer.Raw.grade_to kw;
     StudentTransfer.Raw.semester := StudentTransfer.Raw.semester kw;
     StudentTransfer.Raw.academic_year := StudentTransfer.Raw.academic_year kw;
     StudentTransfer.Raw.transfer_date := StudentTransfer.Raw.transfer_date kw;
     StudentTransfer.Raw.created_by_id := StudentTransfer.Raw.created_by_id kw;
     StudentTransfer.Raw.approved_by_id := by_id;
     StudentTransfer.Raw.approval_date := date;
     StudentTransfer.Raw.approval_notes := StudentTransfer.Raw.approval_notes kw;
     StudentTransfer.Raw.priority_level := StudentTransfer.Raw.priority_level kw;
     StudentTransfer.Raw.notes := StudentTransfer.Raw.notes kw;
     StudentTransfer.Raw.created_at := StudentTransfer.Raw.created_at kw;
     StudentTransfer.Raw.updated_at := StudentTransfer.Raw.updated_at kw |}.

Definition approved_without_approver : StudentTransfer.Raw.t :=
  with_approval (Some APPROVED) None None minimal_transfer.

Definition draft_with_approver : StudentTransfer.Raw.t :=
  with_approval None (Some 1) (Some now0) minimal_transfer.

(** A history row for transfer [tid] by user [uid]. *)
Definition history_entry (tid uid : Z) (prev : option TransferStatus)
    (next : TransferStatus) : TransferStatusHistory.Raw.t :=
  {| TransferStatusHistory.Raw.id := None;
     TransferStatusHistory.Raw.transfer_id := Some tid;
     TransferStatusHistory.Raw.previous_status := prev;
     TransferStatusHistory.Raw.new_status := Some next;
     TransferStatusHistory.Raw.changed_by_id := Some uid;
     TransferStatusHistory.Raw.change_reason := None;
     TransferStatusHistory.Raw.notes := None;
     TransferStatusHistory.Raw.created_at := None |}.

(** An update request that sets the status and nothing else. *)
Definition status_update (s : TransferStatus) : TransferUpdate.t :=
  TransferUpdate.make None (Some s) None None None None None None None.

Definition verified_document : TransferDocument.t :=
  TransferDocument.make (Some 1) 1 REPORT_CARD "rapor.pdf" "/uploads/1/rapor.pdf"
    204800 "application/pdf" true (Some 1) (Some now0) (Some "sesuai") now0.


Definition refused_optional (c : StrField) (v : option string) : bool :=
  match v with
  | Some a => negb (str_ok c a)
  | None => false
  end.



(** The credentials of an accepted registration, as a login request. *)
Definition login_of (u : UserCreate.t) : UserLogin.Raw.t :=
  {| UserLogin.Raw.username := Some (UserCreate.username u);
     UserLogin.Raw.password := Some (UserCreate.password u) |}.

Definition student_request : StudentCreate.Raw.t :=
  {| StudentCreate.Raw.nisn := Some "0012345678";
     StudentCreate.Raw.nis := None;
     StudentCreate.Raw.full_name := Some "Siti Aminah";
     StudentCreate.Raw.birth_place := Some "Bandung";
     StudentCreate.Raw.birth_date := Some (mk_datetime 2014 5 2 0 0 0 0);
     StudentCreate.Raw.gender := Some "Perempuan";
     StudentCreate.Raw.religion := Some "Islam";
     StudentCreate.Raw.address := Some "Jl. Merdeka 10";
     StudentCreate.Raw.parent_name := Some "Ibu Aminah";
     StudentCreate.Raw.parent_phone := Some "081234567890";
     StudentCreate.Raw.current_grade := Some "4" |}.

Definition school_request : SchoolCreate.Raw.t :=
  {| SchoolCreate.Raw.npsn := Some "20100001";
     SchoolCreate.Raw.name := Some "SD Plus 1";
     SchoolCreate.Raw.address := Some "Jl. Merdeka 1";
     SchoolCreate.Raw.district := Some "Coblong";
     SchoolCreate.Raw.regency := Some "Bandung";
     SchoolCreate.Raw.province := Some "Jawa Barat";
     SchoolCreate.Raw.postal_code := Some "40132";
     SchoolCreate.Raw.phone := None;
     SchoolCreate.Raw.email := Some "tata usaha";
     SchoolCreate.Raw.headmaster_name := Some "Ibu Sri" |}.

(** Whether a [User] row meets every string constraint [User] declares
    (what validating the row against its own model would check). *)
Definition User_constraints_ok (r : User.t) : bool :=
  forallb (fun f => str_ok (snd (fst f)) (snd f)) (User.str_fields r).

(** * Properties *)

(** ** Validation *)

Lemma vap_inr {A B} (f : Validated (A -> B)) (x : Validated A) (b : B) :
  f <*> x = inr b -> exists g a, f = inr g /\ x = inr a /\ b = g a.
Proof.
  destruct f as [e1 | g], x as [e2 | a]; simpl; try discriminate.
  intros H; injection H as <-. now exists g, a.
Qed.

Lemma fails_at_left {A B} field (f : Validated (A -> B)) (x : Validated A) :
  fails_at field f -> fails_at field (f <*> x).
Proof.
  intros (errs & k & -> & Hin).
  destruct x as [e2 | a]; simpl.
  - exists (errs ++ e2)%list, k. split; [reflexivity | apply in_or_app; now left].
  - now exists errs, k.
Qed.

Lemma fails_at_right {A B} field (f : Validated (A -> B)) (x : Validated A) :
  fails_at field x -> fails_at field (f <*> x).
Proof.
  intros (errs & k & -> & Hin).
  destruct f as [e1 | g]; simpl.
  - exists (e1 ++ errs)%list, k. split; [reflexivity | apply in_or_app; now right].
  - now exists errs, k.
Qed.

Lemma raise_inr {A} (v : Validated A) (a : A) : raise v = inr a -> v = inr a.
Proof. destruct v; simpl; congruence. Qed.

Lemma raise_fails {A} field (v : Validated A) :
  fails_at field v ->
  exists errs k, raise v = inl (ValidationError errs) /\ In (field, k) errs.
Proof. intros (errs & k & -> & Hin). now exists errs, k. Qed.

Lemma check_str_inr name c v w :
  check_str name c v = inr w -> w = v /\ str_ok c v = true.
Proof.
  unfold check_str, str_ok.
  destruct (too_short c v), (too_long c v), (mismatch c v); simpl;
    intros H; try discriminate; injection H as <-; auto.
Qed.

Lemma check_str_ok name c v : str_ok c v = true -> check_str name c v = inr v.
Proof.
  unfold check_str, str_ok.
  destruct (too_short c v), (too_long c v), (mismatch c v); simpl;
    intros H; try discriminate; reflexivity.
Qed.

Lemma check_str_fails name c v :
  str_ok c v = false -> fails_at name (check_str name c v).
Proof.
  unfold check_str, str_ok, fails_at.
  destruct (too_short c v), (too_long c v), (mismatch c v); simpl;
    intros H; try discriminate; eexists; eexists; (split; [reflexivity | now left]).
Qed.

Lemma required_str_inr name c v w :
  required_str name c v = inr w -> v = Some w /\ str_ok c w = true.
Proof.
  destruct v as [a |]; simpl; [| discriminate].
  intros H. apply check_str_inr in H as [-> H]. auto.
Qed.

Lemma password_field_ok p :
  str_ok UserCreate.password_field p = true <->
  (8 <= String.length p <= 100)%nat.
Proof.
  unfold str_ok, too_short, too_long, mismatch; simpl.
  destruct (Nat.ltb_spec (String.length p) 8),
           (Nat.ltb_spec 100 (String.length p)); simpl; split; intros;
    try discriminate; try reflexivity; lia.
Qed.

(** ** Storage *)

Section TableFacts.
Context {Row : Type}.
Variable get_id : Row -> option Z.
Variable set_id : Z -> Row -> Row.
Variable unique : list (string * (Row -> string)).
Hypothesis set_id_keeps :
  forall c i r, In c unique -> snd c (set_id i r) = snd c r.

Lemma taken_true (proj : Row -> string) (rows : list Row) (r : Row) :
  taken proj rows r = true <-> exists r', In r' rows /\ proj r' = proj r.
Proof.
  unfold taken. rewrite existsb_exists.
  split; intros (r' & Hin & H); exists r'; split; auto.
  - now apply String.eqb_eq.
  - now apply String.eqb_eq.
Qed.

Lemma taken_false (proj : Row -> string) (rows : list Row) (r : Row) :
  taken proj rows r = false -> ~ In (proj r) (map proj rows).
Proof.
  intros H Hin. apply in_map_iff in Hin as (r' & Heq & Hin).
  assert (taken proj rows r = true) by (apply taken_true; eauto).
  congruence.
Qed.

Lemma conflict_some (rows : list Row) (r : Row) f :
  conflict unique rows r = Some f -> offends unique f rows r.
Proof.
  unfold conflict.
  destruct (find _ unique) as [[g proj] |] eqn:Hfind; simpl; [| discriminate].
  intros H; injection H as <-.
  apply find_some in Hfind as [Hin Htaken]. simpl in Htaken.
  apply taken_true in Htaken as (r' & Hr' & Heq).
  now exists proj, r'.
Qed.

Lemma conflict_none (rows : list Row) (r : Row) c :
  conflict unique rows r = None -> In c unique -> taken (snd c) rows r = false.
Proof.
  unfold conflict.
  destruct (find _ unique) eqn:Hfind; simpl; [discriminate |].
  intros _ Hin. now apply (find_none _ _ Hfind c).
Qed.

Lemma offends_conflict f (rows : list Row) (r : Row) :
  offends unique f rows r -> exists g, conflict unique rows r = Some g.
Proof.
  intros (proj & r' & Hin & Hr' & Heq).
  unfold conflict.
  destruct (find _ unique) as [[g pg] |] eqn:Hfind; simpl; [now exists g |].
  exfalso.
  pose proof (find_none _ _ Hfind (f, proj) Hin) as H. simpl in H.
  assert (taken proj rows r = true) by (apply taken_true; eauto).
  congruence.
Qed.

(** A row that repeats a UNIQUE value is refused; the error names a
    column on which it does, and the table is unchanged. *)
Lemma insert_duplicate f (rows : list Row) (r : Row) :
  offends unique f rows r ->
  exists g, insert get_id set_id unique r rows = (inl (UniquenessConflict g), rows)
            /\ offends unique g rows r.
Proof.
  intros H. destruct (offends_conflict _ _ _ H) as [g Hg].
  exists g. unfold insert. rewrite Hg. split; [reflexivity |].
  now apply conflict_some.
Qed.

Lemma insert_refused e (r : Row) (rows : list Row) :
  fst (insert get_id set_id unique r rows) = inl e ->
  snd (insert get_id set_id unique r rows) = rows.
Proof.
  unfold insert.
  destruct (conflict unique rows r); simpl; [reflexivity |].
  destruct (get_id r); [destruct (has_id get_id z rows) |]; simpl;
    try reflexivity; discriminate.
Qed.

Lemma insert_stored (r' r : Row) (rows : list Row) :
  fst (insert get_id set_id unique r rows) = inr r' ->
  snd (insert get_id set_id unique r rows) = (rows ++ [r'])%list
  /\ conflict unique rows r = None
  /\ forall c, In c unique -> snd c r' = snd c r.
Proof.
  unfold insert.
  destruct (conflict unique rows r); simpl; [discriminate |].
  destruct (get_id r); [destruct (has_id get_id z rows) |]; simpl;
    try discriminate; intros H; injection H as <-; auto.
Qed.

(** Every UNIQUE column stays free of repetitions. *)
Lemma reachable_unique (rows : list Row) :
  reachable get_id set_id unique rows ->
  forall c, In c unique -> NoDup (map (snd c) rows).
Proof.
  induction 1 as [| r rows Hreach IH]; intros c Hc; [constructor |].
  destruct (fst (insert get_id set_id unique r rows)) as [e | r'] eqn:Hres.
  - rewrite (insert_refused _ _ _ Hres). now apply IH.
  - destruct (insert_stored _ _ _ Hres) as (-> & Hnone & Hkeep).
    rewrite map_app. simpl.
    apply NoDup_incl_NoDup with (l := snd c r' :: map (snd c) rows).
    + constructor; [| now apply IH].
      rewrite (Hkeep c Hc). apply taken_false.
      now apply conflict_none.
    + rewrite length_app. simpl. lia.
    + intros x Hx. apply in_or_app. destruct Hx as [<- | Hx]; [right; now left | now left].
Qed.
End TableFacts.

(** ** Request shapes and defaults *)

Lemma UserCreate_validate_inr kw u :
  UserCreate.validate kw = inr u ->
  UserCreate.Raw.email kw = Some (UserCreate.email u)
  /\ str_ok (Field 255) (UserCreate.email u) = true
  /\ UserCreate.Raw.password kw = Some (UserCreate.password u)
  /\ str_ok UserCreate.password_field (UserCreate.password u) = true.
Proof.
  unfold UserCreate.validate. intros H. apply raise_inr in H.
  apply vap_inr in H as (f6 & phone & H & _ & ->).
  apply vap_inr in H as (f5 & role & H & _ & ->).
  apply vap_inr in H as (f4 & full_name & H & _ & ->).
  apply vap_inr in H as (f3 & password & H & Hpw & ->).
  apply vap_inr in H as (f2 & email & H & Hem & ->).
  apply vap_inr in H as (f1 & username & H & _ & ->).
  injection H as <-. simpl.
  apply required_str_inr in Hpw as [Hpw Hpwok].
  apply required_str_inr in Hem as [Hem Hemok].
  auto.
Qed.

(** C9. An accepted [UserCreate] request carries a password of 8 to 100
    characters; a request whose password is shorter or longer is refused
    with an error on the [password] field.  The persistent [User] has no
    [password] column: it stores [password_hash], whose only constraint is
    a maximum of 255 characters, with no minimum. *)
Theorem UserCreate_password_bounds (kw : UserCreate.Raw.t) :
  (forall u, UserCreate.validate kw = inr u ->
     UserCreate.Raw.password kw = Some (UserCreate.password u)
     /\ (8 <= String.length (UserCreate.password u) <= 100)%nat)
  /\ (forall p, UserCreate.Raw.password kw = Some p ->
        (String.length p < 8 \/ 100 < String.length p)%nat ->
        exists errs k,
          UserCreate.validate kw = inl (ValidationError errs)
          /\ In ("password", k) errs)
  /\ (forall (r : User.t) c v,
        In ("password_hash", c, v) (User.str_fields r) ->
        v = User.password_hash r
        /\ min_length c = None /\ max_length c = Some 255%nat).
Proof.
  split; [| split].
  - intros u H. apply UserCreate_validate_inr in H as (_ & _ & Hpw & Hok).
    split; [assumption | now apply password_field_ok].
  - intros p Hp Hlen. unfold UserCreate.validate.
    apply raise_fails.
    do 3 apply fails_at_left. apply fails_at_right.
    rewrite Hp. simpl. apply check_str_fails.
    destruct (str_ok UserCreate.password_field p) eqn:Hok; [| reflexivity].
    apply password_field_ok in Hok. lia.
  - intros r c v Hin. unfold User.str_fields in Hin.
    apply in_app_or in Hin as [Hin | Hin].
    + simpl in Hin.
      destruct Hin as [H | [H | [H | [H | []]]]]; try discriminate.
      injection H as <- <-. auto.
    + destruct (User.phone r); simpl in Hin;
        [destruct Hin as [H | []]; discriminate | destruct Hin].
Qed.

Lemma UserCreate_password_bounds_witness :
  exists errs k,
    UserCreate.validate short_password_request = inl (ValidationError errs)
    /\ In ("password", k) errs.
Proof.
  apply (proj1 (proj2 (UserCreate_password_bounds short_password_request))
           "rahasia" eq_refl).
  left. simpl. lia.
Defined.

(** C6. The [UserCreate] shape accepts a request whose email does not
    match the address pattern: the pattern is declared on [User.email]
    only, and [UserCreate.email] carries just the maximum length. *)
Theorem UserCreate_accepts_malformed_email :
  UserCreate.validate bad_email_request =
    inr (UserCreate.make "budi" "not-an-email" "rahasia123" "Budi Santoso"
                         TEACHER None)
  /\ fullmatch email_regex "not-an-email" = false
  /\ str_ok User.email_field "not-an-email" = false.
Proof. repeat split; vm_compute; reflexivity. Qed.

Lemma StudentTransfer_new_from_create now number creator c :
  StudentTransfer.new now (StudentTransfer.from_create number creator c) =
  inr (StudentTransfer.make None number
         (TransferCreate.student_id c) (TransferCreate.transfer_type c)
         (TransferCreate.origin_school_id c)
         (TransferCreate.destination_school_id c)
         (TransferCreate.transfer_reason c) DRAFT
         (TransferCreate.grade_from c) (TransferCreate.grade_to c)
         (TransferCreate.semester c) (TransferCreate.academic_year c)
         now creator None None None
         (TransferCreate.priority_level c) (TransferCreate.notes c) now now).
Proof. reflexivity. Qed.

Lemma StudentTransfer_new_inr now kw t :
  StudentTransfer.new now kw = inr t ->
  StudentTransfer.status t = or_default DRAFT (StudentTransfer.Raw.status kw)
  /\ StudentTransfer.approved_by_id t = StudentTransfer.Raw.approved_by_id kw
  /\ StudentTransfer.approval_date t = StudentTransfer.Raw.approval_date kw
  /\ StudentTransfer.Raw.origin_school_id kw = Some (StudentTransfer.origin_school_id t)
  /\ StudentTransfer.Raw.destination_school_id kw =
       Some (StudentTransfer.destination_school_id t).
Proof.
  unfold StudentTransfer.new, not_null. destruct kw; simpl.
  repeat match goal with
         | |- context [match ?x with Some _ => _ | None => _ end] =>
             is_var x; destruct x; simpl; try discriminate
         end;
    intros H; injection H as <-; simpl; auto.
Qed.

Lemma insert_transfer_keeps_status t t' rows :
  fst (insert_transfer t rows) = inr t' ->
  StudentTransfer.status t' = StudentTransfer.status t.
Proof.
  unfold insert_transfer, insert.
  destruct (conflict _ rows t); simpl; [discriminate |].
  destruct (StudentTransfer.id t); [destruct (has_id _ _ rows) |];
    simpl; try discriminate; intros H; injection H as <-; reflexivity.
Qed.

(** C4 (as the schema has it).  Draft is the default of [status], not a
    constraint: a transfer built without a [status] argument has status
    draft, and so has every transfer created from a [TransferCreate]
    payload, which has no status field; a status given explicitly is kept
    as given.  The status of any transfer is one of the seven members of
    [TransferStatus], whose values are pairwise distinct. *)
Theorem new_transfer_is_draft (now : datetime) :
  (forall kw t,
     StudentTransfer.Raw.status kw = None ->
     StudentTransfer.new now kw = inr t ->
     StudentTransfer.status t = DRAFT)
  /\ (forall kw t s,
        StudentTransfer.Raw.status kw = Some s ->
        StudentTransfer.new now kw = inr t ->
        StudentTransfer.status t = s)
  /\ (forall number creator payload db t db',
        create_transfer now number creator payload db = (inr t, db') ->
        StudentTransfer.status t = DRAFT)
  /\ (forall t : StudentTransfer.t,
        In (StudentTransfer.status t) TransferStatus_.members)
  /\ map TransferStatus_.value TransferStatus_.members =
       ["draft"; "submitted"; "document_verification"; "pending_approval";
        "approved"; "rejected"; "completed"]
  /\ NoDup (map TransferStatus_.value TransferStatus_.members)
  /\ (forall s, TransferStatus_.of_value (TransferStatus_.value s) = Some s).
Proof.
  split; [| split; [| split; [| split; [| split; [| split]]]]].
  - intros kw t Hnone H. apply StudentTransfer_new_inr in H as (H & _).
    now rewrite H, Hnone.
  - intros kw t s Hsome H. apply StudentTransfer_new_inr in H as (H & _).
    now rewrite H, Hsome.
  - intros number creator payload db t db'. unfold create_transfer.
    destruct (TransferCreate.validate payload) as [e | c]; [discriminate |].
    rewrite StudentTransfer_new_from_create. unfold add_transfer.
    destruct (missing_reference db _); [discriminate |].
    destruct (insert_transfer _ _) as [res rows] eqn:Hins.
    intros H; injection H as -> <-.
    assert (Hfst : fst (insert_transfer
                         (StudentTransfer.make None number
                            (TransferCreate.student_id c) (TransferCreate.transfer_type c)
                            (TransferCreate.origin_school_id c)
                            (TransferCreate.destination_school_id c)
                            (TransferCreate.transfer_reason c) DRAFT
                            (TransferCreate.grade_from c) (TransferCreate.grade_to c)
                            (TransferCreate.semester c) (TransferCreate.academic_year c)
                            now creator None None None
                            (TransferCreate.priority_level c) (TransferCreate.notes c)
                            now now)
                         (student_transfers db)) = inr t)
      by now rewrite Hins.
    now apply insert_transfer_keeps_status in Hfst.
  - intros t. destruct (StudentTransfer.status t); simpl; tauto.
  - reflexivity.
  - simpl. repeat constructor; simpl; intuition discriminate.
  - intros s. destruct s; reflexivity.
Qed.

Lemma new_transfer_is_draft_witness :
  exists t, StudentTransfer.new now0 minimal_transfer = inr t
            /\ StudentTransfer.status t = DRAFT.
Proof.
  eexists. split; [reflexivity |].
  apply (proj1 (new_transfer_is_draft now0) minimal_transfer _ eq_refl eq_refl).
Defined.

(** C4 (as stated) fails: a transfer built with an explicit status is
    stored with that status, not as a draft. *)
Lemma new_transfer_need_not_be_draft :
  exists t t' db',
    StudentTransfer.new now0 approved_without_approver = inr t
    /\ add_transfer t db1 = (inr t', db')
    /\ In t' (student_transfers db')
    /\ StudentTransfer.id t' = Some 1
    /\ StudentTransfer.status t' = APPROVED
    /\ StudentTransfer.status t' <> DRAFT.
Proof.
  do 3 eexists.
  split; [reflexivity |].
  split; [vm_compute; reflexivity |].
  split; [left; reflexivity |].
  split; [reflexivity |].
  split; [reflexivity | discriminate].
Qed.

(** ** Status history *)

(** C10. A stored [TransferStatusHistory] row was built with a
    [new_status] and a [changed_by_id], and holds them; a row cannot be
    built without either.  [previous_status] is optional: it is stored as
    given, and a row built without it has [previous_status = None]. *)
Theorem history_row_columns (now : datetime) (kw : TransferStatusHistory.Raw.t) :
  (forall h, TransferStatusHistory.new now kw = inr h ->
     TransferStatusHistory.Raw.new_status kw = Some (TransferStatusHistory.new_status h)
     /\ In (TransferStatusHistory.new_status h) TransferStatus_.members
     /\ TransferStatusHistory.Raw.changed_by_id kw =
          Some (TransferStatusHistory.changed_by_id h)
     /\ TransferStatusHistory.previous_status h =
          TransferStatusHistory.Raw.previous_status kw)
  /\ (TransferStatusHistory.Raw.new_status kw = None
      \/ TransferStatusHistory.Raw.changed_by_id kw = None ->
      exists f, TransferStatusHistory.new now kw = inl (NotNullViolation f))
  /\ (forall tid s uid,
        TransferStatusHistory.Raw.transfer_id kw = Some tid ->
        TransferStatusHistory.Raw.new_status kw = Some s ->
        TransferStatusHistory.Raw.changed_by_id kw = Some uid ->
        TransferStatusHistory.Raw.previous_status kw = None ->
        exists h, TransferStatusHistory.new now kw = inr h
                  /\ TransferStatusHistory.previous_status h = None
                  /\ TransferStatusHistory.new_status h = s
                  /\ TransferStatusHistory.changed_by_id h = uid).
Proof.
  unfold TransferStatusHistory.new, not_null.
  destruct kw as [i tid prev next uid reason notes created]; simpl.
  split; [| split].
  - intros h. destruct tid, next as [s |], uid; try discriminate.
    intros H; injection H as <-; simpl.
    repeat split. destruct s; simpl; tauto.
  - intros [-> | ->].
    + destruct tid; eexists; reflexivity.
    + destruct tid, next; eexists; reflexivity.
  - intros tid' s uid' -> -> -> ->. eexists. repeat split.
Qed.

Lemma history_row_columns_witness :
  exists h, TransferStatusHistory.new now0 first_history_entry = inr h
            /\ TransferStatusHistory.previous_status h = None
            /\ TransferStatusHistory.new_status h = DRAFT
            /\ TransferStatusHistory.changed_by_id h = 1.
Proof.
  apply (proj2 (proj2 (history_row_columns now0 first_history_entry))
           1 DRAFT 1 eq_refl eq_refl eq_refl eq_refl).
Defined.

(** ** Uniqueness *)

Lemma sole_unique_column {Row} (name : string) (proj : Row -> string)
    (get_id : Row -> option Z) (set_id : Z -> Row -> Row) r r' rows :
  In r' rows -> proj r' = proj r ->
  insert get_id set_id [(name, proj)] r rows = (inl (UniquenessConflict name), rows).
Proof.
  intros Hin Heq.
  destruct (insert_duplicate get_id set_id [(name, proj)] name rows r)
    as (g & Hins & (pg & r'' & Hg & _)).
  - exists proj, r'. split; [now left | auto].
  - destruct Hg as [Hg | []]. injection Hg as <- _. exact Hins.
Qed.

Ltac unique_column_kept :=
  let H := fresh in
  simpl; intros ? ? ? H;
  repeat (destruct H as [<- | H]; [reflexivity |]); destruct H.

Lemma User_set_id_keeps c i r :
  In c User.unique -> snd c (User.set_id i r) = snd c r.
Proof. revert c i r. unique_column_kept. Qed.

Lemma School_set_id_keeps c i r :
  In c School.unique -> snd c (School.set_id i r) = snd c r.
Proof. revert c i r. unique_column_kept. Qed.

Lemma Student_set_id_keeps c i r :
  In c Student.unique -> snd c (Student.set_id i r) = snd c r.
Proof. revert c i r. unique_column_kept. Qed.

Lemma StudentTransfer_set_id_keeps c i r :
  In c StudentTransfer.unique -> snd c (StudentTransfer.set_id i r) = snd c r.
Proof. revert c i r. unique_column_kept. Qed.

Lemma SystemSettings_set_id_keeps c i r :
  In c SystemSettings.unique -> snd c (SystemSettings.set_id i r) = snd c r.
Proof. revert c i r. unique_column_kept. Qed.

(** C5. [username] and [email] of [User], [npsn] of [School], [nisn] of
    [Student], [transfer_number] of [StudentTransfer] and [setting_key] of
    [SystemSettings] are the UNIQUE columns.  Inserting a row that repeats
    a stored value of one of them is refused with [UniquenessConflict]
    naming a column on which the row repeats a stored value, and the table
    is left as it was.  In every table built by inserts, each of these
    columns holds no value twice. *)
Theorem unique_columns_enforced :
  (forall r r' rows, In r' rows ->
     User.username r' = User.username r \/ User.email r' = User.email r ->
     exists f, insert_user r rows = (inl (UniquenessConflict f), rows)
               /\ (f = "username" \/ f = "email")
               /\ offends User.unique f rows r)
  /\ (forall r r' rows, In r' rows -> User.username r' = User.username r ->
        insert_user r rows = (inl (UniquenessConflict "username"), rows))
  /\ (forall r r' rows, In r' rows -> School.npsn r' = School.npsn r ->
        insert_school r rows = (inl (UniquenessConflict "npsn"), rows))
  /\ (forall r r' rows, In r' rows -> Student.nisn r' = Student.nisn r ->
        insert_student r rows = (inl (UniquenessConflict "nisn"), rows))
  /\ (forall r r' rows, In r' rows ->
        StudentTransfer.transfer_number r' = StudentTransfer.transfer_number r ->
        insert_transfer r rows = (inl (UniquenessConflict "transfer_number"), rows))
  /\ (forall r r' rows, In r' rows ->
        SystemSettings.setting_key r' = SystemSettings.setting_key r ->
        insert_setting r rows = (inl (UniquenessConflict "setting_key"), rows))
  /\ (forall rows, reachable User.id User.set_id User.unique rows ->
        NoDup (map User.username rows) /\ NoDup (map User.email rows))
  /\ (forall rows, reachable School.id School.set_id School.unique rows ->
        NoDup (map School.npsn rows))
  /\ (forall rows, reachable Student.id Student.set_id Student.unique rows ->
        NoDup (map Student.nisn rows))
  /\ (forall rows,
        reachable StudentTransfer.id StudentTransfer.set_id StudentTransfer.unique rows ->
        NoDup (map StudentTransfer.transfer_number rows))
  /\ (forall rows,
        reachable SystemSettings.id SystemSettings.set_id SystemSettings.unique rows ->
        NoDup (map SystemSettings.setting_key rows)).
Proof.
  repeat match goal with |- _ /\ _ => split end.
  - intros r r' rows Hin Hdup.
    destruct (insert_duplicate User.id User.set_id User.unique
                (if String.eqb (User.username r') (User.username r)
                 then "username" else "email") rows r)
      as (g & Hins & Hg).
    + destruct (String.eqb_spec (User.username r') (User.username r)) as [E | N].
      * exists User.username, r'. split; [now left | auto].
      * exists User.email, r'. split; [right; now left |].
        destruct Hdup; [contradiction | auto].
    + exists g. split; [exact Hins | split; [| exact Hg]].
      destruct Hg as (pg & _ & [H | [H | []]] & _); injection H as <- _; auto.
  - intros r r' rows Hin Heq. unfold insert_user, insert, conflict. simpl.
    assert (Ht : taken User.username rows r = true)
      by (apply taken_true; eauto).
    now rewrite Ht.
  - intros; eapply sole_unique_column; eauto.
  - intros; eapply sole_unique_column; eauto.
  - intros; eapply sole_unique_column; eauto.
  - intros; eapply sole_unique_column; eauto.
  - intros rows H. split.
    + apply (reachable_unique _ _ _ User_set_id_keeps
               rows H ("username", User.username)).
      now left.
    + apply (reachable_unique _ _ _ User_set_id_keeps
               rows H ("email", User.email)).
      right; now left.
  - intros rows H.
    apply (reachable_unique _ _ _ School_set_id_keeps
             rows H ("npsn", School.npsn)).
    now left.
  - intros rows H.
    apply (reachable_unique _ _ _ Student_set_id_keeps
             rows H ("nisn", Student.nisn)).
    now left.
  - intros rows H.
    apply (reachable_unique _ _ _ StudentTransfer_set_id_keeps
             rows H ("transfer_number", StudentTransfer.transfer_number)).
    now left.
  - intros rows H.
    apply (reachable_unique _ _ _ SystemSettings_set_id_keeps
             rows H ("setting_key", SystemSettings.setting_key)).
    now left.
Qed.

Lemma unique_columns_enforced_witness :
  insert_user user1_again (users db1) =
  (inl (UniquenessConflict "username"), users db1).
Proof.
  apply (proj1 (proj2 unique_columns_enforced) user1_again (User.set_id 1 user1)).
  - left. reflexivity.
  - reflexivity.
Defined.

(** ** Origin and destination of a transfer *)

Lemma TransferCreate_with_schools s kw c :
  TransferCreate.validate kw = inr c ->
  TransferCreate.validate (with_schools s kw) =
  inr (TransferCreate.make
         (TransferCreate.student_id c) (TransferCreate.transfer_type c) s s
         (TransferCreate.transfer_reason c) (TransferCreate.grade_from c)
         (TransferCreate.grade_to c) (TransferCreate.semester c)
         (TransferCreate.academic_year c) (TransferCreate.priority_level c)
         (TransferCreate.notes c)).
Proof.
  unfold TransferCreate.validate. intros H. apply raise_inr in H.
  apply vap_inr in H as (f11 & x11 & H & H11 & ->).
  apply vap_inr in H as (f10 & x10 & H & H10 & ->).
  apply vap_inr in H as (f9 & x9 & H & H9 & ->).
  apply vap_inr in H as (f8 & x8 & H & H8 & ->).
  apply vap_inr in H as (f7 & x7 & H & H7 & ->).
  apply vap_inr in H as (f6 & x6 & H & H6 & ->).
  apply vap_inr in H as (f5 & x5 & H & H5 & ->).
  apply vap_inr in H as (f4 & x4 & H & _ & ->).
  apply vap_inr in H as (f3 & x3 & H & _ & ->).
  apply vap_inr in H as (f2 & x2 & H & H2 & ->).
  apply vap_inr in H as (f1 & x1 & H & H1 & ->).
  injection H as <-.
  unfold with_schools; simpl.
  rewrite H1, H2, H5, H6, H7, H8, H9, H10, H11. reflexivity.
Qed.

(** C1 (as the schema has it).  The schema puts no constraint between
    [origin_school_id] and [destination_school_id]: whenever a creation
    request is accepted and stored, the same request with both references
    set to one existing school is accepted and stored as well, and the
    stored row has that school as origin and as destination. *)
Theorem same_school_transfer_accepted
    (now : datetime) (number : string) (creator : Z)
    (payload : TransferCreate.Raw.t) (db : DB) (s : Z)
    (t : StudentTransfer.t) (db' : DB) :
  create_transfer now number creator payload db = (inr t, db') ->
  has_id School.id s (schools db) = true ->
  exists t',
    create_transfer now number creator (with_schools s payload) db =
      (inr t', set_student_transfers (student_transfers db ++ [t'])%list db)
    /\ StudentTransfer.origin_school_id t' = s
    /\ StudentTransfer.destination_school_id t' = s.
Proof.
  unfold create_transfer. intros H Hs.
  destruct (TransferCreate.validate payload) as [e | c] eqn:Hv; [discriminate |].
  rewrite (TransferCreate_with_schools s _ _ Hv).
  rewrite StudentTransfer_new_from_create in *.
  unfold add_transfer in *.
  destruct (missing_reference db _) eqn:Hm in H; [discriminate |].
  unfold missing_reference in *; simpl in *.
  destruct (has_id Student.id _ (students db)); simpl in *; [| discriminate].
  rewrite Hs; simpl.
  destruct (has_id School.id (TransferCreate.origin_school_id c) _);
    simpl in *; [| discriminate].
  destruct (has_id School.id (TransferCreate.destination_school_id c) _);
    simpl in *; [| discriminate].
  destruct (has_id User.id creator (users db)); simpl in *; [| discriminate].
  unfold insert_transfer, insert, conflict in *; simpl in *.
  unfold taken in *; simpl in *.
  destruct (existsb _ (student_transfers db)); simpl in *; [discriminate |].
  eexists. split; [reflexivity | split; reflexivity].
Qed.

Lemma same_school_transfer_accepted_witness :
  exists t',
    create_transfer now0 "TRF-2024-0001" 1 (with_schools 2 transfer_request) db1 =
      (inr t', set_student_transfers (student_transfers db1 ++ [t'])%list db1)
    /\ StudentTransfer.origin_school_id t' = 2
    /\ StudentTransfer.destination_school_id t' = 2.
Proof.
  eapply (same_school_transfer_accepted now0 "TRF-2024-0001" 1 transfer_request db1 2).
  - reflexivity.
  - reflexivity.
Defined.

(** C1 (as stated) fails: a request to create a transfer whose origin is
    its destination is accepted, and the row is stored. *)
Lemma same_school_transfer_stored :
  exists t db',
    create_transfer now0 "TRF-2024-0001" 1 same_school_request db1 = (inr t, db')
    /\ In t (student_transfers db')
    /\ StudentTransfer.origin_school_id t = StudentTransfer.destination_school_id t.
Proof.
  eexists. eexists. split; [vm_compute; reflexivity |].
  split; [left; reflexivity | reflexivity].
Qed.

(** ** Approval columns *)

Lemma insert_row {Row} (get_id : Row -> option Z) (set_id : Z -> Row -> Row)
    (unique : list (string * (Row -> string))) (r r' : Row) (rows : list Row) :
  fst (insert get_id set_id unique r rows) = inr r' ->
  r' = r \/ exists i, r' = set_id i r.
Proof.
  unfold insert.
  destruct (conflict unique rows r); simpl; [discriminate |].
  destruct (get_id r); [destruct (has_id get_id z rows) |]; simpl;
    try discriminate; intros H; injection H as <-; eauto.
Qed.

Lemma StudentTransfer_with_approval now s by_id date kw t :
  StudentTransfer.new now kw = inr t ->
  exists t',
    StudentTransfer.new now (with_approval s by_id date kw) = inr t'
    /\ StudentTransfer.status t' = or_default DRAFT s
    /\ StudentTransfer.approved_by_id t' = by_id
    /\ StudentTransfer.approval_date t' = date.
Proof.
  unfold StudentTransfer.new, not_null, with_approval. destruct kw; simpl.
  repeat match goal with
         | |- context [match ?x with Some _ => _ | None => _ end] =>
             is_var x; destruct x; simpl; try discriminate
         end;
    intros _; eexists; repeat split.
Qed.

(** C2 (as the schema has it).  [approved_by_id] and [approval_date] are
    optional columns with default [None]: a transfer created from a
    [TransferCreate] payload is a draft with both absent.  The schema does
    not tie them to the status: where a transfer can be built at all, it
    can be built with any status and with the approval columns present or
    absent in any combination, and holds them as given. *)
Theorem approval_columns_default_absent (now : datetime) :
  (forall number creator payload db t db',
     create_transfer now number creator payload db = (inr t, db') ->
     StudentTransfer.status t = DRAFT
     /\ StudentTransfer.approved_by_id t = None
     /\ StudentTransfer.approval_date t = None)
  /\ (forall kw t s by_id date,
        StudentTransfer.new now kw = inr t ->
        exists t',
          StudentTransfer.new now (with_approval (Some s) by_id date kw) = inr t'
          /\ StudentTransfer.status t' = s
          /\ StudentTransfer.approved_by_id t' = by_id
          /\ StudentTransfer.approval_date t' = date).
Proof.
  split.
  - intros number creator payload db t db'. unfold create_transfer.
    destruct (TransferCreate.validate payload) as [e | c]; [discriminate |].
    rewrite StudentTransfer_new_from_create. unfold add_transfer.
    destruct (missing_reference db _); [discriminate |].
    destruct (insert_transfer _ _) as [res rows] eqn:Hins.
    intros H; injection H as -> <-.
    apply (f_equal fst) in Hins. simpl in Hins.
    apply insert_row in Hins as [-> | [i ->]]; simpl; auto.
  - intros kw t s by_id date H.
    destruct (StudentTransfer_with_approval now (Some s) by_id date kw t H)
      as (t' & H1 & H2 & H3 & H4).
    exists t'. auto.
Qed.

Lemma approval_columns_default_absent_witness :
  exists t',
    StudentTransfer.new now0
      (with_approval (Some REJECTED) None (Some now0) minimal_transfer) = inr t'
    /\ StudentTransfer.status t' = REJECTED
    /\ StudentTransfer.approved_by_id t' = None
    /\ StudentTransfer.approval_date t' = Some now0.
Proof.
  eapply (proj2 (approval_columns_default_absent now0) minimal_transfer).
  reflexivity.
Defined.

(** C2 (as stated) fails in both directions: an approved transfer with
    neither approval column, and a draft with both, are built and stored. *)
Lemma approval_columns_independent_of_status :
  (exists t t' db',
     StudentTransfer.new now0 approved_without_approver = inr t
     /\ add_transfer t db1 = (inr t', db')
     /\ In t' (student_transfers db')
     /\ decided (StudentTransfer.status t') = true
     /\ approval_populated t' = false)
  /\ (exists t t' db',
        StudentTransfer.new now0 draft_with_approver = inr t
        /\ add_transfer t db1 = (inr t', db')
        /\ In t' (student_transfers db')
        /\ StudentTransfer.status t' = DRAFT
        /\ approval_absent t' = false).
Proof.
  split; do 3 eexists;
    (split; [reflexivity |]);
    (split; [vm_compute; reflexivity |]);
    (split; [left; reflexivity |]);
    split; reflexivity.
Qed.

(** ** The status ledger *)

(** C3 (as the schema has it).  A history row stores an optional
    [previous_status] and a [new_status], each a [TransferStatus]; the
    schema holds no transition graph.  For every pair of statuses the row
    is built and appended to the ledger of its transfer, and an update
    request may name any status. *)
Theorem any_status_pair_is_stored
    (now : datetime) (tid uid : Z) (prev : option TransferStatus)
    (next : TransferStatus) (rows : list TransferStatusHistory.t) :
  (exists h h',
     TransferStatusHistory.new now (history_entry tid uid prev next) = inr h
     /\ insert_history h rows = (inr h', (rows ++ [h'])%list)
     /\ TransferStatusHistory.previous_status h' = prev
     /\ TransferStatusHistory.new_status h' = next
     /\ history_of tid (rows ++ [h']) = (history_of tid rows ++ [next])%list)
  /\ TransferUpdate.validate (status_update next) = inr (status_update next).
Proof.
  split; [| reflexivity].
  eexists. eexists. split; [reflexivity |].
  split; [reflexivity |]. simpl.
  split; [reflexivity |]. split; [reflexivity |].
  unfold history_of. rewrite filter_app, map_app. simpl.
  now rewrite Z.eqb_refl.
Qed.

(** C3 (as stated) fails: the ledger of a transfer accepts a first entry
    draft -> completed, which is no walk of the lifecycle graph. *)
Lemma skipping_history_is_stored :
  exists h h' rows,
    TransferStatusHistory.new now0 (history_entry 1 1 (Some DRAFT) COMPLETED) = inr h
    /\ insert_history h [] = (inr h', rows)
    /\ history_of 1 rows = [COMPLETED]
    /\ walk DRAFT (history_of 1 rows) = false.
Proof.
  do 3 eexists. split; [reflexivity |].
  split; [reflexivity |]. split; reflexivity.
Qed.

(** ** Document verification *)

Lemma verify_content verifier now notes d :
  document_content (verify verifier now notes d) = document_content d.
Proof. reflexivity. Qed.

Lemma verify_document_content i verifier now notes docs :
  map document_content
      (map (fun d' => if is_document i d' then verify verifier now notes d' else d')
           docs)
  = map document_content docs.
Proof.
  induction docs as [| d docs IH]; simpl; [reflexivity |].
  rewrite IH. now destruct (is_document i d).
Qed.

(** C7. Verifying a document that is already verified leaves it verified
    and replaces only [verified_by_id], [verified_at] and
    [verification_notes]; its other columns, and the other documents, are
    as before; verifying once more with the same arguments changes
    nothing. *)
Theorem reverification_updates_only_verifier
    (i verifier : Z) (now : datetime) (notes : option string)
    (docs : list TransferDocument.t) (d : TransferDocument.t) :
  In d docs ->
  TransferDocument.id d = Some i ->
  TransferDocument.is_verified d = true ->
  exists d0 docs',
    verify_document i verifier now notes docs =
      (inr (verify verifier now notes d0), docs')
    /\ In (verify verifier now notes d) docs'
    /\ TransferDocument.is_verified (verify verifier now notes d) = true
    /\ TransferDocument.verified_by_id (verify verifier now notes d) = Some verifier
    /\ TransferDocument.verified_at (verify verifier now notes d) = Some now
    /\ TransferDocument.verification_notes (verify verifier now notes d) = notes
    /\ document_content (verify verifier now notes d) = document_content d
    /\ map document_content docs' = map document_content docs
    /\ (forall d1, In d1 docs -> is_document i d1 = false -> In d1 docs')
    /\ snd (verify_document i verifier now notes docs') = docs'.
Proof.
  intros Hin Hid Hver.
  assert (Hd : is_document i d = true)
    by (unfold is_document; rewrite Hid; apply Z.eqb_refl).
  unfold verify_document at 1.
  destruct (find (is_document i) docs) as [d0 |] eqn:Hfind.
  2:{ pose proof (find_none _ _ Hfind d Hin). congruence. }
  exists d0. eexists. split; [reflexivity |].
  split; [| repeat split].
  - apply in_map_iff. exists d. now rewrite Hd.
  - apply verify_document_content.
  - intros d1 H1 Hn. apply in_map_iff. exists d1. now rewrite Hn.
  - unfold verify_document.
    destruct (find _ (map _ docs)) eqn:Hfind'; simpl.
    + rewrite map_map. apply map_ext. intros a.
      destruct (is_document i a) eqn:Ha.
      * assert (Hv : is_document i (verify verifier now notes a) = true) by exact Ha.
        now rewrite Hv.
      * now rewrite Ha.
    + reflexivity.
Qed.

Lemma reverification_updates_only_verifier_witness :
  exists d0 docs',
    verify_document 1 2 now0 None [verified_document] =
      (inr (verify 2 now0 None d0), docs')
    /\ In (verify 2 now0 None verified_document) docs'
    /\ TransferDocument.is_verified (verify 2 now0 None verified_document) = true
    /\ TransferDocument.verified_by_id (verify 2 now0 None verified_document) = Some 2
    /\ TransferDocument.verified_at (verify 2 now0 None verified_document) = Some now0
    /\ TransferDocument.verification_notes (verify 2 now0 None verified_document) = None
    /\ document_content (verify 2 now0 None verified_document) =
         document_content verified_document
    /\ map document_content docs' = map document_content [verified_document]
    /\ (forall d1, In d1 [verified_document] -> is_document 1 d1 = false -> In d1 docs')
    /\ snd (verify_document 1 2 now0 None docs') = docs'.
Proof.
  apply (reverification_updates_only_verifier 1 2 now0 None
           [verified_document] verified_document).
  - left. reflexivity.
  - reflexivity.
  - reflexivity.
Defined.

(** ** Statistics *)

Section StatisticsFacts.
Variable in_period : StudentTransfer.t -> Z -> Z -> bool.
Variable is_pending : TransferStatus -> bool.

Lemma is_period_set_totals tot y m now r :
  is_period y m (set_totals tot now r) = is_period y m r.
Proof. reflexivity. Qed.

Lemma totals_of_set_totals tot now r : totals_of (set_totals tot now r) = tot.
Proof. now destruct tot. Qed.

Lemma recompute_has_period y m now ts stats :
  existsb (is_period y m) (recompute in_period is_pending y m now ts stats) = true.
Proof.
  unfold recompute.
  destruct (existsb (is_period y m) stats) eqn:Hex.
  - apply existsb_exists in Hex as (r & Hin & Hr).
    apply existsb_exists. exists (set_totals (aggregate in_period is_pending y m ts) now r).
    split; [| now rewrite is_period_set_totals].
    apply in_map_iff. exists r. now rewrite Hr.
  - rewrite existsb_app. simpl. unfold is_period at 2. simpl.
    rewrite !Z.eqb_refl. simpl. apply orb_true_r.
Qed.

(** After a recomputation every row of the period holds the aggregate. *)
Lemma recompute_period_rows y m now ts stats r :
  In r (recompute in_period is_pending y m now ts stats) ->
  is_period y m r = true ->
  totals_of r = aggregate in_period is_pending y m ts.
Proof.
  unfold recompute.
  destruct (existsb (is_period y m) stats) eqn:Hex.
  - intros Hin Hr. apply in_map_iff in Hin as (r0 & <- & _).
    destruct (is_period y m r0) eqn:H0.
    + apply totals_of_set_totals.
    + congruence.
  - intros Hin Hr. apply in_app_or in Hin as [Hin | [<- | []]].
    + assert (existsb (is_period y m) stats = true)
        by (apply existsb_exists; eauto).
      congruence.
    + now destruct (aggregate in_period is_pending y m ts).
Qed.
End StatisticsFacts.

(** C8. Recomputing the statistics of a period a second time over the
    same transfers leaves the totals of every row as the first
    recomputation set them: the period has a row, each row of the period
    holds the aggregate of the transfers, and no row is added. *)
Theorem recompute_twice_same_totals
    (in_period : StudentTransfer.t -> Z -> Z -> bool)
    (is_pending : TransferStatus -> bool)
    (y m : Z) (now1 now2 : datetime)
    (ts : list StudentTransfer.t) (stats : list TransferStatistics.t) :
  let once := recompute in_period is_pending y m now1 ts stats in
  let twice := recompute in_period is_pending y m now2 ts once in
  stored_totals y m twice = stored_totals y m once
  /\ stored_totals y m once <> []
  /\ (forall tot, In tot (stored_totals y m once) ->
        tot = aggregate in_period is_pending y m ts)
  /\ map totals_of twice = map totals_of once
  /\ map TransferStatistics.id twice = map TransferStatistics.id once.
Proof.
  intros once twice.
  assert (Hex : existsb (is_period y m) once = true)
    by apply recompute_has_period.
  assert (Htwice : twice =
            map (fun r => if is_period y m r
                          then set_totals (aggregate in_period is_pending y m ts) now2 r
                          else r) once).
  { unfold twice, recompute at 1. now rewrite Hex. }
  assert (Hrows : forall r, In r once -> is_period y m r = true ->
                            totals_of r = aggregate in_period is_pending y m ts)
    by (intros r; apply recompute_period_rows).
  clearbody once twice. subst twice.
  split; [| split; [| split; [| split]]].
  - unfold stored_totals. clear Hex.
    induction once as [| r once IH]; simpl; [reflexivity |].
    destruct (is_period y m r) eqn:Hr.
    + rewrite is_period_set_totals, Hr. simpl.
      rewrite totals_of_set_totals, (Hrows r (or_introl eq_refl) Hr).
      f_equal. apply IH. intros; apply Hrows; simpl; auto.
    + rewrite Hr. apply IH. intros; apply Hrows; simpl; auto.
  - unfold stored_totals. apply existsb_exists in Hex as (r & Hin & Hr).
    intros Hnil.
    assert (Hf : In r (filter (is_period y m) once)) by (apply filter_In; auto).
    apply (in_map totals_of) in Hf. rewrite Hnil in Hf. destruct Hf.
  - unfold stored_totals. intros tot Hin.
    apply in_map_iff in Hin as (r & <- & Hin).
    apply filter_In in Hin as [Hin Hr]. now apply Hrows.
  - rewrite map_map. apply map_ext_in. intros r Hin.
    destruct (is_period y m r) eqn:Hr; [| reflexivity].
    rewrite totals_of_set_totals. symmetry. now apply Hrows.
  - rewrite map_map. apply map_ext. intros r.
    now destruct (is_period y m r).
Qed.

(** * Further properties of the schema *)

(** ** The matcher against the denotation of patterns *)

Lemma append_cons_inv s1 s2 c s :
  (s1 ++ s2)%string = String c s ->
  (s1 = "" /\ s2 = String c s)
  \/ exists s1', s1 = String c s1' /\ s = (s1' ++ s2)%string.
Proof.
  destruct s1 as [| c1 s1']; simpl; intros H; [now left | right].
  injection H as -> <-. now exists s1'.
Qed.

Lemma nullable_matches r : nullable r = true <-> matches r "".
Proof.
  split.
  - induction r; simpl; intros H; try discriminate.
    + constructor.
    + apply andb_true_iff in H as [H1 H2].
      change "" with ("" ++ "")%string. constructor; auto.
    + apply orb_true_iff in H as [H | H];
        [apply matches_alt_l | apply matches_alt_r]; auto.
    + constructor.
  - intros H. remember "" as w eqn:Hw.
    induction H; simpl; try reflexivity; try discriminate.
    + destruct s1; [| discriminate]. simpl in Hw. subst s2.
      rewrite IHmatches1, IHmatches2; auto.
    + rewrite IHmatches; auto.
    + rewrite IHmatches; auto. apply orb_true_r.
Qed.

Lemma deriv_sound c r : forall s, matches (deriv c r) s -> matches r (String c s).
Proof.
  induction r; simpl; intros s H.
  - inversion H.
  - inversion H.
  - destruct (p c) eqn:Hp; inversion H; subst. now constructor.
  - assert (Hcat : forall s, matches (Cat (deriv c r1) r2) s ->
                             matches (Cat r1 r2) (String c s)).
    { intros s' H'. inversion H'; subst.
      change (String c (s1 ++ s2)) with (String c s1 ++ s2)%string.
      constructor; auto. }
    destruct (nullable r1) eqn:Hn; [| now apply Hcat].
    inversion H; subst; [now apply Hcat |].
    change (String c s) with ("" ++ String c s)%string.
    constructor; [now apply nullable_matches | auto].
  - inversion H; subst; [apply matches_alt_l | apply matches_alt_r]; auto.
  - inversion H; subst.
    change (String c (s1 ++ s2)) with (String c s1 ++ s2)%string.
    constructor; auto.
Qed.

Lemma deriv_complete c r w :
  matches r w -> forall s, w = String c s -> matches (deriv c r) s.
Proof.
  induction 1; intros s0 Hw; simpl; try discriminate.
  - injection Hw as -> <-. rewrite H. constructor.
  - apply append_cons_inv in Hw as [[-> ->] | (s1' & -> & ->)].
    + apply nullable_matches in H as ->.
      apply matches_alt_r. now apply IHmatches2.
    + destruct (nullable r1).
      * apply matches_alt_l. constructor; auto.
      * constructor; auto.
  - apply matches_alt_l. auto.
  - apply matches_alt_r. auto.
  - apply append_cons_inv in Hw as [[-> ->] | (s1' & -> & ->)].
    + now apply IHmatches2.
    + constructor; auto.
Qed.

(** The derivative matcher accepts exactly the strings the pattern
    denotes. *)
Lemma fullmatch_spec (r : regex) (s : string) :
  fullmatch r s = true <-> matches r s.
Proof.
  revert r. induction s as [| c s IH]; intros r; simpl.
  - apply nullable_matches.
  - rewrite IH. split.
    + apply deriv_sound.
    + intros H. now apply (deriv_complete c r (String c s)).
Qed.

(** ** The email pattern *)

Lemma append_assoc (a b c : string) : ((a ++ b) ++ c = a ++ (b ++ c))%string.
Proof. induction a as [| x a IH]; simpl; [reflexivity | now rewrite IH]. Qed.

Lemma length_append (a b : string) :
  String.length (a ++ b) = (String.length a + String.length b)%nat.
Proof. induction a as [| x a IH]; simpl; [reflexivity | now rewrite IH]. Qed.

Lemma all_in_append p (a b : string) :
  all_in p (a ++ b) = all_in p a && all_in p b.
Proof.
  induction a as [| x a IH]; simpl; [reflexivity |].
  now rewrite IH, andb_assoc.
Qed.

Lemma occurrences_append c (a b : string) :
  occurrences c (a ++ b) = (occurrences c a + occurrences c b)%nat.
Proof. induction a as [| x a IH]; simpl; [reflexivity | rewrite IH; lia]. Qed.

Lemma all_in_weaken (p q : ascii -> bool) s :
  (forall c, p c = true -> q c = true) -> all_in p s = true -> all_in q s = true.
Proof.
  intros Hpq. induction s as [| c s IH]; simpl; [reflexivity |].
  intros H. apply andb_true_iff in H as [Hc Hs].
  now rewrite (Hpq c Hc), IH.
Qed.

Lemma all_in_no_occurrence p c s :
  p c = false -> all_in p s = true -> occurrences c s = O.
Proof.
  intros Hc. induction s as [| x s IH]; simpl; [reflexivity |].
  intros H. apply andb_true_iff in H as [Hx Hs].
  destruct (Ascii.eqb_spec c x) as [<- | _]; [congruence | now rewrite IH].
Qed.

Lemma nonempty_length s : s <> "" -> (1 <= String.length s)%nat.
Proof. destruct s; [congruence | simpl; lia]. Qed.

Lemma matches_star_class p s :
  matches (Star (Class p)) s <-> all_in p s = true.
Proof.
  split.
  - intros H. remember (Star (Class p)) as r eqn:Hr.
    induction H; try discriminate; [reflexivity |].
    injection Hr as ->. inversion H as [| ? c Hc | | | | |]; subst. simpl.
    rewrite Hc. now apply IHmatches2.
  - induction s as [| c s IH]; simpl; intros H; [constructor |].
    apply andb_true_iff in H as [Hc Hs].
    change (String c s) with (String c "" ++ s)%string.
    constructor; [now constructor | auto].
Qed.

Lemma matches_plus_class p s :
  matches (Plus (Class p)) s <-> s <> "" /\ all_in p s = true.
Proof.
  unfold Plus. split.
  - intros H. inversion H as [| | ? ? s1 s2 H1 H2 | | | |]; subst.
    inversion H1 as [| ? c Hc | | | | |]; subst. simpl.
    apply matches_star_class in H2. rewrite Hc, H2.
    split; [discriminate | reflexivity].
  - intros [Hne H]. destruct s as [| c s]; [congruence |].
    simpl in H. apply andb_true_iff in H as [Hc Hs].
    change (String c s) with (String c "" ++ s)%string.
    constructor; [now constructor | now apply matches_star_class].
Qed.

Lemma matches_char c s :
  matches (Class (Ascii.eqb c)) s <-> s = String c "".
Proof.
  split.
  - intros H. inversion H as [| ? c' Hc | | | | |]; subst.
    now apply Ascii.eqb_eq in Hc as ->.
  - intros ->. constructor. apply Ascii.eqb_refl.
Qed.

Lemma email_regex_parts (s : string) :
  fullmatch email_regex s = true ->
  exists l d t,
    s = (l ++ "@" ++ d ++ "." ++ t)%string
    /\ l <> "" /\ d <> "" /\ t <> ""
    /\ all_in local_char l = true
    /\ all_in domain_char d = true
    /\ all_in suffix_char t = true.
Proof.
  rewrite fullmatch_spec. unfold email_regex.
  fold local_char domain_char suffix_char.
  intros H.
  inversion H as [| | ? ? l r1 Hl H1 | | | |]; subst; clear H.
  inversion H1 as [| | ? ? a r2 Ha H2 | | | |]; subst; clear H1.
  inversion H2 as [| | ? ? d r3 Hd H3 | | | |]; subst; clear H2.
  inversion H3 as [| | ? ? b t Hb Ht | | | |]; subst; clear H3.
  apply matches_char in Ha as ->. apply matches_char in Hb as ->.
  apply matches_plus_class in Hl as [Hl1 Hl2].
  apply matches_plus_class in Hd as [Hd1 Hd2].
  apply matches_plus_class in Ht as [Ht1 Ht2].
  exists l, d, t. auto 10.
Qed.

Lemma email_regex_build (l d t : string) :
  l <> "" -> d <> "" -> t <> "" ->
  all_in local_char l = true ->
  all_in domain_char d = true ->
  all_in suffix_char t = true ->
  fullmatch email_regex (l ++ "@" ++ d ++ "." ++ t) = true.
Proof.
  intros Hl Hd Ht Hl' Hd' Ht'.
  apply fullmatch_spec. unfold email_regex.
  fold local_char domain_char suffix_char.
  constructor; [now apply matches_plus_class |].
  constructor; [now apply matches_char |].
  constructor; [now apply matches_plus_class |].
  constructor; [now apply matches_char |].
  now apply matches_plus_class.
Qed.

Lemma chomp_spec s p : chomp s = Some p <-> s = (p ++ String newline "")%string.
Proof.
  revert p. induction s as [| c s IH]; intros p.
  - split; [discriminate | destruct p; discriminate].
  - destruct s as [| c' s'].
    + simpl. destruct (Ascii.eqb_spec c newline) as [-> | Hc]; split; intros H.
      * injection H as <-. reflexivity.
      * destruct p as [| x [| y p]]; simpl in H; try discriminate; reflexivity.
      * discriminate.
      * destruct p as [| x [| y p]]; simpl in H; try discriminate.
        injection H as ->. congruence.
    + change (chomp (String c (String c' s')))
        with (option_map (String c) (chomp (String c' s'))).
      destruct (chomp (String c' s')) as [q |] eqn:Hq; simpl; split; intros H.
      * injection H as <-. simpl. f_equal. now apply IH.
      * destruct p as [| x p]; simpl in H; [discriminate |].
        injection H as <- H. apply IH in H. congruence.
      * discriminate.
      * destruct p as [| x p]; simpl in H; [discriminate |].
        injection H as <- H. apply IH in H. congruence.
Qed.

Lemma re_match_iff r s :
  re_match r s = true <->
  fullmatch r s = true
  \/ exists p, s = (p ++ String newline "")%string /\ fullmatch r p = true.
Proof.
  unfold re_match. rewrite orb_true_iff. split; intros [H | H]; auto.
  - destruct (chomp s) as [p |] eqn:Hp; [| discriminate].
    apply chomp_spec in Hp. right. now exists p.
  - destruct H as (p & Hs & Hp). apply chomp_spec in Hs. rewrite Hs. now right.
Qed.

Lemma email_body_shape (s : string) :
  fullmatch email_regex s = true ->
  occurrences "@" s = 1%nat
  /\ (5 <= String.length s)%nat
  /\ all_in (fun c => local_char c || Ascii.eqb "@" c) s = true.
Proof.
  intros H. apply email_regex_parts in H
    as (l & d & t & -> & Hl & Hd & Ht & Hl' & Hd' & Ht').
  split; [| split].
  - rewrite !occurrences_append. simpl.
    rewrite (all_in_no_occurrence local_char "@" l eq_refl Hl').
    rewrite (all_in_no_occurrence domain_char "@" d eq_refl Hd').
    rewrite (all_in_no_occurrence suffix_char "@" t eq_refl Ht').
    reflexivity.
  - rewrite !length_append. simpl.
    apply nonempty_length in Hl, Hd, Ht. lia.
  - rewrite !all_in_append. simpl.
    rewrite (all_in_weaken local_char _ l), (all_in_weaken domain_char _ d),
      (all_in_weaken suffix_char _ t); auto.
    + intros c. unfold suffix_char, local_char, one_of. simpl.
      destruct (alnum c), (Ascii.eqb c "-"), (Ascii.eqb c "."),
        (Ascii.eqb c "_"), (Ascii.eqb c "+"); simpl; auto; discriminate.
    + intros c. unfold domain_char, local_char, one_of. simpl.
      destruct (alnum c), (Ascii.eqb c "-"), (Ascii.eqb c "."),
        (Ascii.eqb c "_"), (Ascii.eqb c "+"); simpl; auto; discriminate.
    + intros c Hc. now rewrite Hc.
Qed.

Lemma email_body_trailing (s : string) (c : ascii) :
  fullmatch email_regex s = true ->
  suffix_char c = true ->
  fullmatch email_regex (s ++ String c "") = true.
Proof.
  intros H Hc. apply email_regex_parts in H
    as (l & d & t & -> & Hl & Hd & Ht & Hl' & Hd' & Ht').
  replace ((l ++ "@" ++ d ++ "." ++ t) ++ String c "")%string
    with (l ++ "@" ++ d ++ "." ++ (t ++ String c ""))%string
    by (rewrite !append_assoc; reflexivity).
  apply email_regex_build; auto.
  - destruct t; discriminate.
  - rewrite all_in_append, Ht'. simpl. now rewrite Hc.
Qed.

(** X1. The strings the pattern of [User.email] admits under [re.match]:
    a non-empty local part over [a-zA-Z0-9_.+-], an at sign, a non-empty
    label over [a-zA-Z0-9-], a dot, and a non-empty rest over
    [a-zA-Z0-9-.]; and each such string followed by one newline, which
    [$] lets through. *)
Theorem email_regex_language (s : string) :
  re_match email_regex s = true <->
  exists l d t,
    (s = (l ++ "@" ++ d ++ "." ++ t)%string
     \/ s = ((l ++ "@" ++ d ++ "." ++ t) ++ String newline "")%string)
    /\ l <> "" /\ d <> "" /\ t <> ""
    /\ all_in local_char l = true
    /\ all_in domain_char d = true
    /\ all_in suffix_char t = true.
Proof.
  rewrite re_match_iff. split.
  - intros [H | (p & -> & H)];
      apply email_regex_parts in H as (l & d & t & -> & H);
      exists l, d, t; auto.
  - intros (l & d & t & [-> | ->] & Hl & Hd & Ht & Hl' & Hd' & Ht').
    + left. now apply email_regex_build.
    + right. eexists. split; [reflexivity | now apply email_regex_build].
Qed.

(** X2. A string the pattern of [User.email] admits holds exactly one at
    sign and at least five characters; apart from a newline it may end
    in, it consists of letters, digits and the characters [_ . + - @]. *)
Theorem email_regex_shape (s : string) :
  re_match email_regex s = true ->
  occurrences "@" s = 1%nat
  /\ (5 <= String.length s)%nat
  /\ exists a,
       (s = a \/ s = (a ++ String newline "")%string)
       /\ all_in (fun c => local_char c || Ascii.eqb "@" c) a = true.
Proof.
  intros H. apply re_match_iff in H as [H | (p & -> & H)];
    apply email_body_shape in H as (Hat & Hlen & Hall).
  - split; [exact Hat | split; [exact Hlen |]]. exists s. auto.
  - split; [| split].
    + rewrite occurrences_append, Hat. reflexivity.
    + rewrite length_append. lia.
    + exists p. auto.
Qed.

Lemma email_regex_shape_witness :
  occurrences "@" "budi@sdplus.sch.id" = 1%nat
  /\ (5 <= String.length "budi@sdplus.sch.id")%nat
  /\ exists a,
       ("budi@sdplus.sch.id" = a
        \/ "budi@sdplus.sch.id" = (a ++ String newline "")%string)
       /\ all_in (fun c => local_char c || Ascii.eqb "@" c) a = true.
Proof. apply (email_regex_shape "budi@sdplus.sch.id"). reflexivity. Defined.

(** X3. The pattern of [User.email] does not look at how an address
    ends: an admitted string without newline, followed by one more
    letter, digit, hyphen or dot, is admitted, and so is the string
    followed by a newline. *)
Theorem email_regex_trailing (s : string) (c : ascii) :
  re_match email_regex s = true ->
  occurrences newline s = O ->
  suffix_char c = true ->
  re_match email_regex (s ++ String c "") = true
  /\ re_match email_regex (s ++ String newline "") = true.
Proof.
  intros H Hnl Hc.
  assert (Hs : fullmatch email_regex s = true).
  { apply re_match_iff in H as [H | (p & -> & _)]; [exact H |].
    rewrite occurrences_append in Hnl. simpl in Hnl. lia. }
  split; apply re_match_iff.
  - left. now apply email_body_trailing.
  - right. now exists s.
Qed.

Lemma email_regex_trailing_witness :
  re_match email_regex ("budi@sdplus.sch.id" ++ ".") = true
  /\ re_match email_regex ("budi@sdplus.sch.id" ++ String newline "") = true.
Proof.
  apply (email_regex_trailing "budi@sdplus.sch.id" "."); reflexivity.
Defined.

(** ** Acceptance and rejection by the request shapes *)

Lemma Field_ok n v : str_ok (Field n) v = true <-> (String.length v <= n)%nat.
Proof.
  unfold str_ok, too_short, too_long, mismatch; simpl.
  destruct (Nat.ltb_spec n (String.length v)); simpl; split; intros;
    try discriminate; try reflexivity; lia.
Qed.

Lemma required_inr {A} name (v : option A) a : required name v = inr a -> v = Some a.
Proof. destruct v; simpl; congruence. Qed.

Lemma optional_str_inr name c v w :
  optional_str name c v = inr w -> w = v /\ refused_optional c v = false.
Proof.
  destruct v as [a |]; simpl; [| intros H; injection H as <-; auto].
  destruct (check_str name c a) eqn:Hc; [discriminate |].
  apply check_str_inr in Hc as [-> Hok].
  intros H; injection H as <-. now rewrite Hok.
Qed.

Lemma default_str_inr name c d v w :
  default_str name c d v = inr w ->
  (v = None /\ w = d) \/ (v = Some w /\ str_ok c w = true).
Proof.
  destruct v as [a |]; simpl.
  - intros H. apply check_str_inr in H as [-> Hok]. now right.
  - intros H; injection H as <-. now left.
Qed.








Lemma required_nonempty {A} name (v : option A) : required name v <> inl [].
Proof. destruct v; discriminate. Qed.










Ltac invert_shape H :=
  apply raise_inr in H;
  repeat (let f := fresh "f" in let x := fresh "x" in let Hx := fresh "Hx" in
          apply vap_inr in H as (f & x & H & Hx & ->));
  injection H as <-;
  repeat match goal with
         | Hx : required_str _ _ _ = inr _ |- _ =>
             let E := fresh "E" in let K := fresh "K" in
             apply required_str_inr in Hx as [E K]
         | Hx : optional_str _ _ _ = inr _ |- _ =>
             let E := fresh "E" in let K := fresh "K" in
             apply optional_str_inr in Hx as [E K]
         | Hx : required _ _ = inr _ |- _ => apply required_inr in Hx
         end.

(** X6. The credentials of an accepted [UserCreate] request are accepted by
    [UserLogin]: what a user may register with, the user may log in with. *)
Theorem registered_credentials_can_log_in (kw : UserCreate.Raw.t) (u : UserCreate.t) :
  UserCreate.validate kw = inr u ->
  UserLogin.validate (login_of u) =
  inr (UserLogin.make (UserCreate.username u) (UserCreate.password u)).
Proof.
  unfold UserCreate.validate. intros H. invert_shape H.
  unfold UserLogin.validate, login_of. simpl.
  repeat match goal with K : str_ok (Field _) _ = true |- _ => apply Field_ok in K end.
  match goal with K : str_ok UserCreate.password_field _ = true |- _ =>
    apply password_field_ok in K end.
  rewrite (check_str_ok "username" (Field 50)) by now apply Field_ok.
  rewrite (check_str_ok "password" (Field 100)) by (apply Field_ok; lia).
  reflexivity.
Qed.

Lemma registered_credentials_can_log_in_witness :
  UserLogin.validate
    (login_of (UserCreate.make "budi" "not-an-email" "rahasia123" "Budi Santoso"
                               TEACHER None)) =
  inr (UserLogin.make "budi" "rahasia123").
Proof.
  apply (registered_credentials_can_log_in bad_email_request). reflexivity.
Defined.

(** ** Request shapes against the columns they feed *)

Ltac fits_optional :=
  repeat match goal with
         | K : refused_optional _ ?v = false |- context [opt_value _ ?v] =>
             destruct v; simpl in K |- *;
             [apply negb_false_iff in K; rewrite ?K |]
         end.

(** X8. Every string an accepted [StudentCreate] request holds fits the
    [Student] column of the same name. *)
Theorem StudentCreate_fits_Student (kw : StudentCreate.Raw.t) (c : StudentCreate.t) :
  StudentCreate.validate kw = inr c ->
  fits Student_columns (StudentCreate_values c) = true.
Proof.
  unfold StudentCreate.validate. intros H. invert_shape H.
  unfold StudentCreate_values, fits; simpl.
  subst. fits_optional; simpl;
    repeat match goal with K : str_ok _ _ = true |- _ => rewrite K; clear K end;
    reflexivity.
Qed.

Lemma StudentCreate_fits_Student_witness :
  exists c, StudentCreate.validate student_request = inr c
            /\ fits Student_columns (StudentCreate_values c) = true.
Proof.
  eexists. split; [reflexivity |].
  eapply (StudentCreate_fits_Student student_request). reflexivity.
Defined.

(** X9. Every string an accepted [SchoolCreate] request holds fits the
    [School] column of the same name; the email, when given, is bound in
    length only. *)
Theorem SchoolCreate_fits_School (kw : SchoolCreate.Raw.t) (c : SchoolCreate.t) :
  SchoolCreate.validate kw = inr c ->
  fits School_columns (SchoolCreate_values c) = true.
Proof.
  unfold SchoolCreate.validate. intros H. invert_shape H.
  unfold SchoolCreate_values, fits; simpl.
  subst. fits_optional; simpl;
    repeat match goal with K : str_ok _ _ = true |- _ => rewrite K; clear K end;
    reflexivity.
Qed.

Lemma SchoolCreate_fits_School_witness :
  exists c, SchoolCreate.validate school_request = inr c
            /\ SchoolCreate.email c = Some "tata usaha"
            /\ fits School_columns (SchoolCreate_values c) = true.
Proof.
  eexists. split; [reflexivity | split; [reflexivity |]].
  eapply (SchoolCreate_fits_School school_request). reflexivity.
Defined.

(** X10. The row built from an accepted [TransferCreate] request fits every
    string column of [StudentTransfer], provided the transfer number the
    caller supplies has at most 50 characters; a request without priority
    gives a row of priority "normal". *)
Theorem created_transfer_fits_columns
    (now : datetime) (number : string) (creator : Z)
    (kw : TransferCreate.Raw.t) (c : TransferCreate.t) :
  (String.length number <= 50)%nat ->
  TransferCreate.validate kw = inr c ->
  exists t,
    StudentTransfer.new now (StudentTransfer.from_create number creator c) = inr t
    /\ fits StudentTransfer_columns (StudentTransfer_values t) = true
    /\ (TransferCreate.Raw.priority_level kw = None ->
        StudentTransfer.priority_level t = "normal").
Proof.
  intros Hn H. rewrite StudentTransfer_new_from_create.
  eexists. split; [reflexivity |].
  unfold TransferCreate.validate in H. invert_shape H.
  match goal with
  | Hx : default_str _ _ _ _ = inr _ |- _ =>
      apply default_str_inr in Hx as [[Hp ->] | [Hp Hok]]
  end; subst; unfold StudentTransfer_values, fits; simpl;
    apply Field_ok in Hn; rewrite Hn;
    fits_optional; simpl;
    repeat match goal with K : str_ok _ _ = true |- _ => rewrite K; clear K end;
    (split; [reflexivity | congruence]).
Qed.

Lemma created_transfer_fits_columns_witness :
  exists t,
    StudentTransfer.new now0
      (StudentTransfer.from_create "TRF-2024-0001" 1
         (TransferCreate.make 1 OUTGOING 1 2 "Pindah domisili" "4" "4" "2"
            "2023/2024" "normal" None)) = inr t
    /\ fits StudentTransfer_columns (StudentTransfer_values t) = true
    /\ (TransferCreate.Raw.priority_level transfer_request = None ->
        StudentTransfer.priority_level t = "normal").
Proof.
  apply (created_transfer_fits_columns now0 "TRF-2024-0001" 1 transfer_request).
  - simpl. lia.
  - reflexivity.
Defined.

(** X11. An accepted [TransferUpdate] is the request itself: validation
    changes no field, and validating the result again accepts it. *)
Theorem TransferUpdate_returns_request (kw u : TransferUpdate.t) :
  TransferUpdate.validate kw = inr u ->
  u = kw /\ TransferUpdate.validate u = inr u.
Proof.
  intros H. assert (Hu : u = kw).
  { unfold TransferUpdate.validate in H. invert_shape H.
    match goal with
    | Hx : optional _ = inr _ |- _ => injection Hx as <-
    end.
    subst. now destruct kw. }
  subst u. split; [reflexivity | exact H].
Qed.

Lemma TransferUpdate_returns_request_witness :
  status_update COMPLETED = status_update COMPLETED
  /\ TransferUpdate.validate (status_update COMPLETED) = inr (status_update COMPLETED).
Proof.
  apply (TransferUpdate_returns_request (status_update COMPLETED)). reflexivity.
Defined.

(** X12. A [TransferApproval] request is accepted exactly when it carries a
    status and approval notes of at most 1000 characters; the status may
    be any of the seven, not only approved or rejected. *)
Theorem TransferApproval_accepts_iff (kw : TransferApproval.Raw.t)
    (a : TransferApproval.t) :
  TransferApproval.validate kw = inr a <->
  TransferApproval.Raw.status kw = Some (TransferApproval.status a)
  /\ TransferApproval.Raw.approval_notes kw = Some (TransferApproval.approval_notes a)
  /\ (String.length (TransferApproval.approval_notes a) <= 1000)%nat.
Proof.
  unfold TransferApproval.validate. split.
  - intros H. invert_shape H. simpl. subst.
    match goal with K : str_ok _ _ = true |- _ => apply Field_ok in K end.
    auto.
  - intros (Hs & Hn & Hlen). destruct a as [s n]; simpl in *.
    rewrite Hs, Hn. simpl.
    rewrite (check_str_ok "approval_notes" (Field 1000) n) by now apply Field_ok.
    reflexivity.
Qed.

(** X13. A [DocumentUpload] request is accepted exactly when it names a
    document type, a file name of at most 255 characters, a file size and
    a MIME type of at most 100 characters; the file size may be any
    integer.  What is accepted fits the [TransferDocument] columns. *)
Theorem DocumentUpload_accepts_iff (kw : DocumentUpload.Raw.t) (d : DocumentUpload.t) :
  (DocumentUpload.validate kw = inr d <->
   DocumentUpload.Raw.document_type kw = Some (DocumentUpload.document_type d)
   /\ DocumentUpload.Raw.file_name kw = Some (DocumentUpload.file_name d)
   /\ (String.length (DocumentUpload.file_name d) <= 255)%nat
   /\ DocumentUpload.Raw.file_size kw = Some (DocumentUpload.file_size d)
   /\ DocumentUpload.Raw.mime_type kw = Some (DocumentUpload.mime_type d)
   /\ (String.length (DocumentUpload.mime_type d) <= 100)%nat)
  /\ (DocumentUpload.validate kw = inr d ->
      fits TransferDocument_columns (DocumentUpload_values d) = true).
Proof.
  unfold DocumentUpload.validate. split; [split |].
  - intros H. invert_shape H. simpl. subst.
    repeat match goal with K : str_ok _ _ = true |- _ => apply Field_ok in K end.
    auto 10.
  - intros (Ht & Hf & Hflen & Hs & Hm & Hmlen). destruct d as [t f s m]; simpl in *.
    rewrite Ht, Hf, Hs, Hm. simpl.
    rewrite (check_str_ok "file_name" (Field 255) f) by now apply Field_ok.
    simpl.
    rewrite (check_str_ok "mime_type" (Field 100) m) by now apply Field_ok.
    reflexivity.
  - intros H. invert_shape H. unfold fits; simpl. subst.
    repeat match goal with K : str_ok _ _ = true |- _ => rewrite K; clear K end.
    reflexivity.
Qed.

(** ** Enumerations *)

Ltac lookup_by_value m :=
  split;
  [ cbv beta iota delta [find];
    repeat match goal with
           | |- context [String.eqb ?a ?v] =>
               destruct (String.eqb_spec a v) as [<- | _];
               [ let H := fresh in intros H; injection H as <-; reflexivity |]
           end;
    discriminate
  | intros ->; destruct m; reflexivity ].

(** X15. Looking a member up by value and taking the value of a member are
    inverse to each other, in each of the five enumerations: a string is
    the value of at most one member, and every member is found by its
    value. *)
Theorem enum_lookup_inverts_value :
  (forall v r, UserRole_.of_value v = Some r <-> v = UserRole_.value r)
  /\ (forall v s, TransferStatus_.of_value v = Some s <-> v = TransferStatus_.value s)
  /\ (forall v t, TransferType_of_value v = Some t <-> v = TransferType_.value t)
  /\ (forall v d, DocumentType_.of_value v = Some d <-> v = DocumentType_.value d)
  /\ (forall v n, NotificationType_.of_value v = Some n <-> v = NotificationType_.value n).
Proof.
  repeat match goal with |- _ /\ _ => split end; intros v m.
  - unfold UserRole_.of_value, UserRole_.members. lookup_by_value m.
  - unfold TransferStatus_.of_value, TransferStatus_.members. lookup_by_value m.
  - unfold TransferType_of_value, TransferType_members. lookup_by_value m.
  - unfold DocumentType_.of_value, DocumentType_.members. lookup_by_value m.
  - unfold NotificationType_.of_value, NotificationType_.members. lookup_by_value m.
Qed.

(** X16. The value of a transfer status is the value of a notification type
    for approved, rejected and completed only, and then of the type of the
    same name; the four statuses before the decision have no notification
    type of their value. *)
Theorem status_values_among_notification_types (s : TransferStatus)
    (n : NotificationType) :
  NotificationType_.of_value (TransferStatus_.value s) = Some n <->
  (s = APPROVED /\ n = N_APPROVED)
  \/ (s = REJECTED /\ n = N_REJECTED)
  \/ (s = COMPLETED /\ n = N_COMPLETED).
Proof.
  split.
  - destruct s; vm_compute; intros H; try discriminate;
      injection H as <-; auto.
  - intros [[-> ->] | [[-> ->] | [-> ->]]]; reflexivity.
Qed.

(** ** Registration against the [User] constraints *)

(** X7. A [User] row that carries the username, email, full name and
    phone of an accepted [UserCreate] request, with a password hash of at
    most 255 characters, meets the string constraints [User] declares
    exactly when the email matches the address pattern: the pattern is
    the only constraint of [User] that [UserCreate] does not already
    impose. *)
Theorem UserCreate_fits_User_up_to_email
    (kw : UserCreate.Raw.t) (u : UserCreate.t) (r : User.t) :
  UserCreate.validate kw = inr u ->
  User.username r = UserCreate.username u ->
  User.email r = UserCreate.email u ->
  User.full_name r = UserCreate.full_name u ->
  User.phone r = UserCreate.phone u ->
  (String.length (User.password_hash r) <= 255)%nat ->
  User_constraints_ok r = re_match email_regex (UserCreate.email u).
Proof.
  unfold UserCreate.validate. intros H Hun Hem Hfn Hph Hhash. invert_shape H.
  cbn [UserCreate.username UserCreate.email UserCreate.full_name
       UserCreate.phone] in *.
  unfold User_constraints_ok, User.str_fields.
  rewrite forallb_app. cbn [forallb fst snd].
  rewrite Hun, Hem, Hfn, Hph.
  apply Field_ok in Hhash. rewrite Hhash.
  repeat match goal with
         | K : str_ok (Field 50) _ = true |- _ => rewrite K; clear K
         | K : str_ok (Field 100) _ = true |- _ => rewrite K; clear K
         end.
  match goal with
  | K : str_ok (Field 255) ?e = true |- _ =>
      replace (str_ok User.email_field e)
        with (str_ok (Field 255) e && re_match email_regex e);
      [rewrite K |]
  end.
  - subst.
    match goal with
    | K : refused_optional _ ?v = false |- _ =>
        destruct v; simpl in K; cbn [forallb fst snd];
        [apply negb_false_iff in K; rewrite K |]
    end; cbn [andb]; now rewrite ?andb_true_r.
  - unfold str_ok, too_short, too_long, mismatch. cbn.
    now rewrite andb_true_r, negb_involutive.
Qed.

Lemma UserCreate_fits_User_up_to_email_witness :
  User_constraints_ok user1 = re_match email_regex "budi@sdplus.sch.id".
Proof.
  apply (UserCreate_fits_User_up_to_email
           {| UserCreate.Raw.username := Some "budi";
              UserCreate.Raw.email := Some "budi@sdplus.sch.id";
              UserCreate.Raw.password := Some "rahasia123";
              UserCreate.Raw.full_name := Some "Budi Santoso";
              UserCreate.Raw.role := None;
              UserCreate.Raw.phone := None |}
           (UserCreate.make "budi" "budi@sdplus.sch.id" "rahasia123"
                            "Budi Santoso" TEACHER None) user1);
    try reflexivity.
  simpl. lia.
Defined.
